(** * Vedic birth-chart computation (src/lib/kundliCalculations.ts)

    A shallow embedding of the chart pipeline and of the coordinate-string
    helpers, with the properties stated about them.

    Numbers.  A TypeScript [number] is read as an exact rational ([Q]): the
    arithmetic of the source is kept operator for operator, rounding of the
    binary64 format is not represented.  Where the source can produce [NaN]
    out of a string (the coordinate helpers) the value type [jsnum] adds it;
    where it can read past a table and fail on the missing entry
    ([calcNakshatra]) the result is an [option].

    The exact reading and the binary64 run of the code part where a value
    sits within rounding distance of a threshold the code compares it with
    (a multiple of 30 degrees, the end of a nakshatra span, one half at the
    8th decimal) and where a number overflows.  Statements over [Q] are
    therefore made for the value a comparison is applied to, or away from
    the thresholds and within stated bounds.  The module [B64] holds the
    normalisation and the two classifications on binary64 numbers
    themselves, to show where the two readings part.

    Library functions.  [Math.floor] and [Math.ceil] are the floor and the
    ceiling of a rational, [Math.min] on integers is [Z.min], and
    [Math.pow] with the exponent 2 is [Qpower].  [Math.sin], [Math.cos],
    [Math.tan] and [Math.atan2] have no rational counterpart and are taken
    as variables of the section holding the chart computation: every
    statement about the chart holds for any implementation of them. *)

From Stdlib Require Import ZArith QArith Qround Lqa Lia List String Ascii Bool
  Permutation.
From Stdlib Require PrimFloat SpecFloat FloatOps Uint63.
Import ListNotations.

Local Open Scope Z_scope.
Local Open Scope Q_scope.

(** ** Numbers *)

Module Num.

(** Comparison operators of the source, as booleans. *)
Definition leb (x y : Q) : bool := Qle_bool x y.
Definition ltb (x y : Q) : bool := negb (Qle_bool y x).
Definition geb (x y : Q) : bool := leb y x.
Definition gtb (x y : Q) : bool := ltb y x.

Definition Math_floor (x : Q) : Z := Qfloor x.
Definition Math_ceil (x : Q) : Z := Qceiling x.

(** [Math.PI] is the binary64 number next to pi, itself a rational. *)
Definition Math_PI : Q := 884279719003555 # 281474976710656.

(** [x % y] of the source on numbers: the remainder takes the sign of
    the dividend. *)
Definition trunc (x : Q) : Z :=
  if leb 0 x then Math_floor x else Math_ceil x.
Definition rem (x y : Q) : Q := x - y * inject_Z (trunc (x / y)).

End Num.

Infix "<=?" := Num.leb (at level 70, no associativity) : Q_scope.
Infix "<?" := Num.ltb (at level 70, no associativity) : Q_scope.
Infix ">=?" := Num.geb (at level 70, no associativity) : Q_scope.
Infix ">?" := Num.gtb (at level 70, no associativity) : Q_scope.

Coercion inject_Z : Z >-> Q.

(** ** Constants (lines 1-13) *)

Definition DEGS : Q := 180 / Num.Math_PI.
Definition RADS : Q := Num.Math_PI / 180.
Definition EPS : Q := 1.0e-12.

Definition AS : Z := 0.
Definition SU : Z := 1.
Definition MO : Z := 2.
Definition MA : Z := 3.
Definition ME : Z := 4.
Definition JU : Z := 5.
Definition VE : Z := 6.
Definition SA : Z := 7.
Definition RA : Z := 8.
Definition KE : Z := 9.

Definition zodiacNames : list string :=
  [ EmptyString; "Aries"; "Taurus"; "Gemini"; "Cancer"; "Leo"; "Virgo";
    "Libra"; "Scorpio"; "Sagittarius"; "Capricorn"; "Aquarius"; "Pisces" ]%string.

(** ** Angle normalisation (lines 37-52) *)

Definition _abs (x : Q) : Q :=
  if x >=? 0.0 then Num.Math_floor x else Num.Math_ceil x.

Definition mod360 (x : Q) : Q :=
  let a := 360 * ((x / 360) - _abs (x / 360)) in
  if a <? 0 then a + 360 else a.

Definition mod2pi (x : Q) : Q :=
  let b := x / (2 * Num.Math_PI) in
  let a := (2 * Num.Math_PI) * (b - _abs b) in
  if a <? 0 then (2 * Num.Math_PI) + a else a.

(** ** Classification: zodiac sign (lines 224-238) *)

Definition calcZodiac (deg : Q) : Z :=
  let d := mod360 deg in
  if (d >=? 0) && (d <=? 30) then 1%Z
  else if (d >? 30) && (d <=? 60) then 2%Z
  else if (d >? 60) && (d <=? 90) then 3%Z
  else if (d >? 90) && (d <=? 120) then 4%Z
  else if (d >? 120) && (d <=? 150) then 5%Z
  else if (d >? 150) && (d <=? 180) then 6%Z
  else if (d >? 180) && (d <=? 210) then 7%Z
  else if (d >? 210) && (d <=? 240) then 8%Z
  else if (d >? 240) && (d <=? 270) then 9%Z
  else if (d >? 270) && (d <=? 300) then 10%Z
  else if (d >? 300) && (d <=? 330) then 11%Z
  else 12%Z.

(** ** Input and output records (lines 15-35, 265) *)

(** A valid [Date], read through the three getters the source calls. *)
Module Date.
Record t : Set := mk
  { getFullYear : Z;
    getMonth : Z;      (* 0 for January *)
    getDate : Z }.
End Date.

Module Clock.
Record t : Set := mk { hours : Q; minutes : Q }.
End Clock.

Module BirthData.
Record t : Set := mk
  { name : string;
    date : Date.t;
    time : Clock.t;
    tz : Q;
    lat : Q;
    lon : Q }.
End BirthData.

Module Planet.
Record t : Set := mk
  { name : string;
    index : Z;
    ra : Q;
    zodiac : string;
    degree : Q;
    rasizn : Z;
    navzn : Z;
    nakshatra : string;
    nakshatraLord : string;
    nakshatraPada : Z }.
End Planet.

Module Nakshatra.
(** An entry of the table and the value [calcNakshatra] returns. *)
Record entry : Set := mkEntry { entry_name : string; entry_lord : string }.
Record t : Set := mk { name : string; lord : string; pada : Z }.
End Nakshatra.

Module Chart.
Record t : Set := mk
  { planets : list Planet.t;
    rashis : list Z;
    houses : list (list string) }.
End Chart.

(** ** Time and calendar (lines 54-119) *)

Definition calcDayNumber (birthData : BirthData.t) : Q :=
  let date := BirthData.date birthData in
  let time := BirthData.time birthData in
  let tz := BirthData.tz birthData in
  let yy := Date.getFullYear date in
  let mm := (Date.getMonth date + 1)%Z in
  let dd := Date.getDate date in
  let '(yy, mm) := if (mm <? 3)%Z then ((yy - 1)%Z, (mm + 12)%Z) else (yy, mm) in
  let b : Z :=
    if (yy * 10000 + mm * 100 + dd >? 15821004)%Z then
      let a := Num.Math_floor (0.01 * yy) in
      (2 - a + Num.Math_floor (0.25 * a))%Z
    else 0%Z in
  let c := Num.Math_floor (365.25 * yy) in
  let d := Num.Math_floor (30.6001 * (mm + 1)%Z) in
  b + c + d - 730550.5 + dd
  + ((Clock.hours time - tz) + Clock.minutes time / 60.0) / 24.0.

Definition calcDeltaT (year : Q) : Q :=
  let y := year + 0.5 / 12 in
  let c := -0.000012932 * Qpower (y - 1955) 2 in
  if (y >? 2005) && (y <=? 2050) then
    let t := y - 2000 in
    62.92 + 0.32217 * t + 0.005589 * t * t + c
  else if (y >? 1986) && (y <=? 2005) then
    let t := y - 2000 in
    3.86 + 0.3345 * t - 0.060374 * t * t + 0.0017275 * t * t * t
    + 0.000651814 * t * t * t * t + 0.00002373599 * t * t * t * t * t
  else 0.

(** The value [j + fc] of [calcJulianDate] (lines 77-97), before it is
    rounded. *)
Definition julianDayCount (birthData : BirthData.t) : Q :=
  let date := BirthData.date birthData in
  let time := BirthData.time birthData in
  let tz := BirthData.tz birthData in
  let yy := Date.getFullYear date in
  let mm := (Date.getMonth date + 1)%Z in
  let dd := Date.getDate date in
  let '(jy, jm) := if (mm >? 2)%Z then (yy, (mm + 1)%Z) else ((yy - 1)%Z, (mm + 13)%Z) in
  let j : Q :=
    Num.Math_floor (365.25 * jy) + Num.Math_floor (30.6001 * jm) + dd + 1720995.0 in
  let j : Q :=
    if (dd + 31 * (mm + 12 * yy) >=? 588829)%Z then
      let a := Num.Math_floor (0.01 * jy) in
      j + (2 - a + Num.Math_floor (0.25 * a))%Z
    else j in
  let df := (Clock.hours time - tz) / 24.0 - 0.5 in
  let '(df, j) := if df <? 0.0 then (df + 1.0, j - 1) else (df, j) in
  let dT := calcDeltaT (Date.getFullYear date) in
  let fc := df + (Clock.minutes time + dT / 60.0) / 60.0 / 24.0 in
  j + fc.

(** Lines 98-101 as a function of the product [(j + fc) * 10000000], which
    the source writes out twice: its floor, one more when the product is
    above the floor by more than one half, times 0.0000001. *)
Definition roundToSeventh (product : Q) : Q :=
  let jd := Num.Math_floor product in
  let jd := if (product - jd) >? 0.5 then (jd + 1)%Z else jd in
  jd * 0.0000001.

Definition calcJulianDate (birthData : BirthData.t) : Q :=
  roundToSeventh (julianDayCount birthData * 10000000).

(** ** Reference frame (lines 121-147) *)

Definition calcAyanamsa (date : Date.t) : Q :=
  let yy := Date.getFullYear date in
  let mm := (Date.getMonth date + 1)%Z in
  let dd := Date.getDate date in
  let d : Z := if (yy <? 100)%Z then 10%Z else 1000%Z in
  let c := yy * 1.0 / d in
  let a := -6.92416 + 16.90709 * c - 0.757371 * c * c in
  let b := (mm + dd / 30) * 1.1574074 / d in
  a + b.

Definition calcSiderealTime (birthData : BirthData.t) : Q :=
  let lon := BirthData.lon birthData in
  let dn := calcDayNumber birthData in
  let t := dn / 36525.0 in
  let tt := t * 36525.0 in
  mod360 (280.46061837 + 360.98564736629 * tt
          + 0.000387933 * t * t - (t * t * t) / 38710000 + lon).

Definition calcEclipticObliquity (jd : Q) : Q :=
  let cy := jd / 36525.0 in
  23 + (26 / 60.0) + (21.448 / 3600.0) - (46.815 * cy) / 3600.

(** ** Mean-element positions (lines 161-180) *)

Definition elements : list (Z * (Q * Q)) :=
  [ (SU, (280.46457, 0.98564736));
    (MO, (218.316, 13.176396));
    (MA, (355.4533, 0.524071));
    (ME, (252.251, 4.09233));
    (JU, (34.4044, 0.08309));
    (VE, (181.9798, 1.60214));
    (SA, (49.9443, 0.03346)) ].

(** [elements[planet]]: the entry under that key, when there is one. *)
Fixpoint lookup (key : Z) (table : list (Z * (Q * Q))) : option (Q * Q) :=
  match table with
  | [] => None
  | (k, v) :: rest => if (k =? key)%Z then Some v else lookup key rest
  end.

Definition calcPlanetPosition (planet : Z) (dn : Q) : Q :=
  let cy := dn / 36525 in
  match lookup planet elements with
  | Some (L, rate) => mod360 (L + rate * dn)
  | None => 0
  end.

(** ** Classification: nakshatra (lines 240-263) *)

Definition nakshatras : list Nakshatra.entry :=
  map (fun p => Nakshatra.mkEntry (fst p) (snd p))
  [ ("Ashvini", "Ke"); ("Bharani", "Ve"); ("Krittika", "Su");
    ("Rohini", "Mo"); ("Mrigashir", "Ma"); ("Ardra", "Ra");
    ("Punarvasu", "Ju"); ("Pushya", "Sa"); ("Ashlesha", "Me");
    ("Magha", "Ke"); ("P.Phalg", "Ve"); ("U.Phalg", "Su");
    ("Hasta", "Mo"); ("Chitra", "Ma"); ("Svati", "Ra");
    ("Vishakha", "Ju"); ("Anuradha", "Sa"); ("Jyeshtha", "Me");
    ("Mula", "Ke"); ("P.Shadha", "Ve"); ("U.Shadha", "Su");
    ("Sravana", "Mo"); ("Dhanista", "Ma"); ("Shatabhi", "Ra");
    ("P.Bhadra", "Ju"); ("U.Bhadra", "Sa"); ("Revati", "Me") ]%string.

(** [a[i]] for an integer [i]: no entry below 0 or from the length on. *)
Definition array_get {A : Type} (a : list A) (i : Z) : option A :=
  if (i <? 0)%Z then None else nth_error a (Z.to_nat i).

(** The index and the quarter as the source computes them (lines 253-256
    and the [Math.min] of line 261). *)
Definition nakshatraIndex (deg : Q) : Z :=
  let d := if deg <? 0 then deg + 360 else deg in
  Z.rem (Num.Math_floor (d / 13.3333)) 27.

Definition nakshatraPada (deg : Q) : Z :=
  let d := if deg <? 0 then deg + 360 else deg in
  let posInNakshatra := Num.rem d 13.3333 in
  let pada := (Num.Math_floor (posInNakshatra / 3.3333) + 1)%Z in
  Z.min pada 4.

(** Reading [.name] of a missing table entry raises a [TypeError]: the
    result is [None] then. *)
Definition calcNakshatra (deg : Q) : option Nakshatra.t :=
  match array_get nakshatras (nakshatraIndex deg) with
  | Some e =>
      Some (Nakshatra.mk (Nakshatra.entry_name e) (Nakshatra.entry_lord e)
                         (nakshatraPada deg))
  | None => None
  end.

(** ** House assignment (lines 274-280 and 444-452) *)

(** The loop of lines 277-280, [n] rounds from index [i] on; [rashis] holds
    the entries [0..i-1], so that the store [rashis[i] = v] appends. *)
Fixpoint rashisLoop (n : nat) (ascZodiac i x : Z) (rashis : list Z) : list Z :=
  match n with
  | O => rashis
  | S n' =>
      if (ascZodiac + i >? 12)%Z
      then rashisLoop n' ascZodiac (i + 1)%Z (x + 1)%Z (rashis ++ [x])
      else rashisLoop n' ascZodiac (i + 1)%Z x (rashis ++ [(ascZodiac + i)%Z])
  end.

Definition calcRashis (ascZodiac : Z) : list Z :=
  rashisLoop 12 ascZodiac 0 1 [].

(** The inner loop of lines 447-451 for house [i], [n] rounds from body
    [j] on.  [rashis[i]] may be missing (the comparison is false then);
    a missing [planets[j]] raises. *)
Fixpoint houseLoop (n : nat) (rashis : list Z) (planets : list Planet.t)
    (i j : Z) (house : list string) : option (list string) :=
  match n with
  | O => Some house
  | S n' =>
      match array_get planets j with
      | None => None
      | Some p =>
          let same :=
            match array_get rashis i with
            | Some r => (r =? Planet.rasizn p)%Z
            | None => false
            end in
          houseLoop n' rashis planets i (j + 1)%Z
                    (if same then house ++ [Planet.name p] else house)
      end
  end.

(** The outer loop of lines 446-452, [n] rounds from house [i] on. *)
Fixpoint housesLoop (n : nat) (rashis : list Z) (planets : list Planet.t)
    (i : Z) : option (list (list string)) :=
  match n with
  | O => Some []
  | S n' =>
      match houseLoop 10 rashis planets i 0 [] with
      | None => None
      | Some house =>
          match housesLoop n' rashis planets (i + 1)%Z with
          | None => None
          | Some rest => Some (house :: rest)
          end
      end
  end.

Definition calcHouses (rashis : list Z) (planets : list Planet.t)
  : option (list (list string)) :=
  housesLoop 12 rashis planets 0.

(** ** Bodies of the chart (lines 214-222 and the blocks of 285-442) *)

Definition calcMoonAscendingNode (birthData : BirthData.t) : Q :=
  let jd := calcJulianDate birthData in
  let T := (jd - 2415020.5) / 36525.0 in
  let ay := calcAyanamsa (BirthData.date birthData) in
  let n := mod2pi ((259.183275 - 1800 * T - 134.142008 * T
                    + 0.002078 * T * T) * RADS) * DEGS in
  n - ay.

(** [zodiacNames[k]]; the signs the chart asks for are within the table
    (the empty string stands for a missing entry). *)
Definition zodiacName (k : Z) : string :=
  match array_get zodiacNames k with Some s => s | None => EmptyString end.

(** The record each of the blocks of lines 300-442 builds out of the
    body's short name, its index and its longitude [deg]. *)
Definition bodyRecord (name : string) (index : Z) (deg : Q) : option Planet.t :=
  match calcNakshatra deg with
  | None => None
  | Some nk =>
      Some {| Planet.name := name;
              Planet.index := index;
              Planet.ra := deg;
              Planet.zodiac := zodiacName (calcZodiac deg);
              Planet.degree := Num.rem deg 30;
              Planet.rasizn := calcZodiac deg;
              Planet.navzn := calcZodiac (mod2pi (deg * 9 * RADS) * DEGS);
              Planet.nakshatra := Nakshatra.name nk;
              Planet.nakshatraLord := Nakshatra.lord nk;
              Planet.nakshatraPada := Nakshatra.pada nk |}
  end.

(** The block of lines 285-298, which keeps the sign of the unnormalised
    [ascDeg]. *)
Definition ascendantRecord (ascDeg : Q) (ascZodiac : Z) : option Planet.t :=
  match calcNakshatra (mod360 ascDeg) with
  | None => None
  | Some ascNakshatra =>
      Some {| Planet.name := "As";
              Planet.index := AS;
              Planet.ra := mod360 ascDeg;
              Planet.zodiac := zodiacName ascZodiac;
              Planet.degree := Num.rem (mod360 ascDeg) 30;
              Planet.rasizn := ascZodiac;
              Planet.navzn := calcZodiac (mod2pi (mod360 ascDeg * 9 * RADS) * DEGS);
              Planet.nakshatra := Nakshatra.name ascNakshatra;
              Planet.nakshatraLord := Nakshatra.lord ascNakshatra;
              Planet.nakshatraPada := Nakshatra.pada ascNakshatra |}
  end.

(** Sequencing of steps that may raise. *)
Definition bind {A B : Type} (m : option A) (k : A -> option B) : option B :=
  match m with Some a => k a | None => None end.

(** ** The chart (lines 149-159, 182-222, 265-455) *)

Section Transcendental.

(** The transcendental functions of [Math]. *)
Variable Math_sin Math_cos Math_tan : Q -> Q.
Variable Math_atan2 : Q -> Q -> Q.

Definition calcAscendant (birthData : BirthData.t) : Q :=
  let lat := BirthData.lat birthData in
  let t := calcSiderealTime birthData in
  let jd := calcJulianDate birthData in
  let ecl := calcEclipticObliquity jd in
  let asc :=
    Math_atan2 (Math_cos (t * RADS))
               (- Math_sin (t * RADS) * Math_cos (ecl * RADS)
                - Math_tan (lat * RADS) * Math_sin (ecl * RADS)) in
  asc * DEGS.

Definition calcMoonPosition (birthData : BirthData.t) : Q :=
  let jd := calcJulianDate birthData in
  let T := (jd - 2451545.0) / 36525.0 in
  let T2 := T * T in
  let T3 := T * T * T in
  let T4 := T * T * T * T in
  let lprime := mod2pi ((218.3164591 + 481267.88134236 * T - 0.0013268 * T2
                         + T3 / 538841.0 - T4 / 65194000.0) * RADS) in
  let d := mod2pi ((297.8502042 + 445267.1115168 * T - 0.00163 * T2
                    + T3 / 545868.0 - T4 / 113065000.0) * RADS) in
  let m := mod2pi ((357.5291092 + 35999.0502909 * T - 0.0001536 * T2
                    + T3 / 24490000.0) * RADS) in
  let mprime := mod2pi ((134.9634114 + 477198.8676313 * T + 0.008997 * T2
                         + T3 / 69699.0 - T4 / 14712000.0) * RADS) in
  let f := mod2pi ((93.2720993 + 483202.0175273 * T - 0.0034029 * T2
                    - T3 / 3526000.0 + T4 / 863310000.0) * RADS) in
  let a1 := mod2pi ((119.75 + 131.849 * T) * RADS) in
  let a2 := mod2pi ((53.09 + 479264.29 * T) * RADS) in
  let sigmaL :=
    6288774 * Math_sin mprime
    + 1274027 * Math_sin (2 * d - mprime)
    + 658314 * Math_sin (2 * d)
    + 213618 * Math_sin (2 * mprime)
    - 185116 * Math_sin m
    - 114332 * Math_sin (2 * f) in
  let sigmaL :=
    sigmaL + (3958.0 * Math_sin a1 + 1962.0 * Math_sin (lprime - f)
              + 318.0 * Math_sin a2) in
  mod2pi (((lprime * DEGS) + sigmaL / 1000000.0) * RADS) * DEGS.

Notation "x <- m ;; k" := (bind m (fun x => k))
  (at level 61, m at next level, right associativity).

Definition calculateChart (birthData : BirthData.t) : option Chart.t :=
  let ay := calcAyanamsa (BirthData.date birthData) in
  let dn := calcDayNumber birthData in
  let jd := calcJulianDate birthData in
  let ascDeg := calcAscendant birthData - ay in
  let ascZodiac := calcZodiac ascDeg in
  let rashis := calcRashis ascZodiac in
  pAS <- ascendantRecord ascDeg ascZodiac ;;
  let sunDeg := mod360 (calcPlanetPosition SU dn - ay) in
  pSU <- bodyRecord "Su" SU sunDeg ;;
  let moonDeg := mod360 (calcMoonPosition birthData - ay) in
  pMO <- bodyRecord "Mo" MO moonDeg ;;
  let marsDeg := mod360 (calcPlanetPosition MA dn - ay) in
  pMA <- bodyRecord "Ma" MA marsDeg ;;
  let mercDeg := mod360 (calcPlanetPosition ME dn - ay) in
  pME <- bodyRecord "Me" ME mercDeg ;;
  let jupDeg := mod360 (calcPlanetPosition JU dn - ay) in
  pJU <- bodyRecord "Ju" JU jupDeg ;;
  let venDeg := mod360 (calcPlanetPosition VE dn - ay) in
  pVE <- bodyRecord "Ve" VE venDeg ;;
  let satDeg := mod360 (calcPlanetPosition SA dn - ay) in
  pSA <- bodyRecord "Sa" SA satDeg ;;
  let rahuDeg := mod360 (calcMoonAscendingNode birthData) in
  pRA <- bodyRecord "Ra" RA rahuDeg ;;
  let ketuDeg := mod360 (rahuDeg + 180) in
  pKE <- bodyRecord "Ke" KE ketuDeg ;;
  let planets := [pAS; pSU; pMO; pMA; pME; pJU; pVE; pSA; pRA; pKE] in
  houses <- calcHouses rashis planets ;;
  Some {| Chart.planets := planets;
          Chart.rashis := rashis;
          Chart.houses := houses |}.

End Transcendental.

(** ** Coordinate strings (lines 457-479)

    Strings are ASCII text.  The library functions the two helpers call are
    written out after ECMAScript: [String.prototype.replace] with the
    pattern of the source, [toUpperCase], [indexOf], [split], [parseInt]
    without a radix and [parseFloat]. *)

Module JS.

(** A number the helpers can return. *)
Inductive jsnum : Set :=
| Fin (q : Q)
| PInf
| NInf
| NaN.

Definition add (a b : jsnum) : jsnum :=
  match a, b with
  | NaN, _ | _, NaN => NaN
  | Fin x, Fin y => Fin (x + y)
  | PInf, NInf | NInf, PInf => NaN
  | PInf, _ | _, PInf => PInf
  | NInf, _ | _, NInf => NInf
  end.

Definition neg (a : jsnum) : jsnum :=
  match a with
  | Fin x => Fin (- x)
  | PInf => NInf
  | NInf => PInf
  | NaN => NaN
  end.

(** [a / 60]. *)
Definition div60 (a : jsnum) : jsnum :=
  match a with
  | Fin x => Fin (x / 60)
  | other => other
  end.

(** [a || 0]: [NaN] and zero are falsy. *)
Definition orZero (a : jsnum) : jsnum :=
  match a with
  | NaN => Fin 0
  | Fin x => if Qeq_bool x 0 then Fin 0 else Fin x
  | other => other
  end.

(** Equality of numbers, up to the representation of the rational;
    [NaN] is written as such and compared as a value of the model. *)
Definition same (a b : jsnum) : Prop :=
  match a, b with
  | Fin x, Fin y => x == y
  | PInf, PInf | NInf, NInf | NaN, NaN => True
  | _, _ => False
  end.

Definition code (c : ascii) : N := N_of_ascii c.

Definition isWhiteSpace (c : ascii) : bool :=
  let n := code c in ((9 <=? n) && (n <=? 13) || (n =? 32))%N.

Definition isDigit (c : ascii) : bool :=
  let n := code c in ((48 <=? n) && (n <=? 57))%N.

Definition digitValue (c : ascii) : Z := Z.of_N (code c - 48).

(** Value of a digit in radix 16, when it is one. *)
Definition hexValue (c : ascii) : option Z :=
  let n := code c in
  if ((48 <=? n) && (n <=? 57))%N then Some (Z.of_N (n - 48))
  else if ((65 <=? n) && (n <=? 70))%N then Some (Z.of_N (n - 55))
  else if ((97 <=? n) && (n <=? 102))%N then Some (Z.of_N (n - 87))
  else None.

Definition upper (c : ascii) : ascii :=
  let n := code c in
  if ((97 <=? n) && (n <=? 122))%N then ascii_of_N (n - 32) else c.

(** [s.replace] of every run of white space by the empty string *)
Fixpoint removeWhiteSpace (s : list ascii) : list ascii :=
  match s with
  | [] => []
  | c :: r => if isWhiteSpace c then removeWhiteSpace r else c :: removeWhiteSpace r
  end.

Definition toUpperCase (s : list ascii) : list ascii := map upper s.

(** [s.indexOf(c) !== -1] *)
Definition contains (c : ascii) (s : list ascii) : bool :=
  existsb (Ascii.eqb c) s.

(** [s.split(c)] for a separator of one character. *)
Fixpoint split (sep : ascii) (s : list ascii) : list (list ascii) :=
  match s with
  | [] => [[]]
  | c :: r =>
      if Ascii.eqb c sep then [] :: split sep r
      else match split sep r with
           | [] => [[c]]
           | part :: parts => (c :: part) :: parts
           end
  end.

Fixpoint trimStart (s : list ascii) : list ascii :=
  match s with
  | c :: r => if isWhiteSpace c then trimStart r else s
  | [] => []
  end.

(** The sign in front of a numeral, and what follows it. *)
Definition takeSign (s : list ascii) : bool * list ascii :=
  match s with
  | "-"%char :: r => (true, r)
  | "+"%char :: r => (false, r)
  | _ => (false, s)
  end.

(** The longest run of decimal digits in front of [s], its value read
    after [acc], the number of digits, and the rest. *)
Fixpoint decimalDigits (s : list ascii) (acc : Z) (n : nat) : Z * nat * list ascii :=
  match s with
  | c :: r =>
      if isDigit c then decimalDigits r (10 * acc + digitValue c)%Z (S n)
      else (acc, n, s)
  | [] => (acc, n, s)
  end.

Fixpoint hexDigits (s : list ascii) (acc : Z) (n : nat) : Z * nat :=
  match s with
  | c :: r =>
      match hexValue c with
      | Some v => hexDigits r (16 * acc + v)%Z (S n)
      | None => (acc, n)
      end
  | [] => (acc, n)
  end.

(** [parseInt(s)]: leading white space, a sign, [0x] or [0X] for radix
    16, then the longest run of digits; [NaN] when that run is empty.
    A missing argument reads as the word undefined, which has no digits. *)
Definition parseIntChars (s : list ascii) : jsnum :=
  let '(negative, s) := takeSign (trimStart s) in
  let '(value, digits) :=
    match s with
    | "0"%char :: ("x"%char :: r) | "0"%char :: ("X"%char :: r) => hexDigits r 0 O
    | _ => let '(v, n, _) := decimalDigits s 0 O in (v, n)
    end in
  match digits with
  | O => NaN
  | S _ => Fin (inject_Z (if negative then - value else value)%Z)
  end.

Definition parseInt (part : option (list ascii)) : jsnum :=
  match part with
  | Some s => parseIntChars s
  | None => NaN
  end.

Definition startsWith (p s : list ascii) : bool :=
  match list_eq_dec ascii_dec p (firstn (List.length p) s) with
  | left _ => true
  | right _ => false
  end.

(** The exponent part, when it is complete: [e] or [E], a sign, digits. *)
Definition exponentPart (s : list ascii) : Z :=
  match s with
  | "e"%char :: r | "E"%char :: r =>
      let '(negative, r) := takeSign r in
      let '(v, n, _) := decimalDigits r 0 O in
      match n with
      | O => 0%Z
      | S _ => if negative then (- v)%Z else v
      end
  | _ => 0%Z
  end.

(** [parseFloat(s)]: the longest prefix of the trimmed string that is a
    decimal literal, [NaN] when there is none. *)
Definition parseFloat (s : list ascii) : jsnum :=
  let '(negative, s) := takeSign (trimStart s) in
  if startsWith (list_ascii_of_string "Infinity") s then
    if negative then NInf else PInf
  else
    let '(ip, ni, rest) := decimalDigits s 0 O in
    let '(fp, nf, rest) :=
      match rest with
      | "."%char :: r => decimalDigits r 0 O
      | _ => (0%Z, O, rest)
      end in
    match ni, nf with
    | O, O => NaN
    | _, _ =>
        let mantissa := inject_Z ip + inject_Z fp / inject_Z (10 ^ Z.of_nat nf) in
        let value := mantissa * Qpower 10 (exponentPart rest) in
        Fin (if negative then - value else value)
    end.

End JS.

Definition parseLatitude (input : string) : JS.jsnum :=
  let tmp := JS.toUpperCase (JS.removeWhiteSpace (list_ascii_of_string input)) in
  if JS.contains "N" tmp then
    let parts := JS.split "N" tmp in
    JS.add (JS.parseInt (array_get parts 0))
           (JS.div60 (JS.orZero (JS.parseInt (array_get parts 1))))
  else if JS.contains "S" tmp then
    let parts := JS.split "S" tmp in
    JS.neg (JS.add (JS.parseInt (array_get parts 0))
                   (JS.div60 (JS.orZero (JS.parseInt (array_get parts 1)))))
  else JS.orZero (JS.parseFloat (list_ascii_of_string input)).

Definition parseLongitude (input : string) : JS.jsnum :=
  let tmp := JS.toUpperCase (JS.removeWhiteSpace (list_ascii_of_string input)) in
  if JS.contains "E" tmp then
    let parts := JS.split "E" tmp in
    JS.add (JS.parseInt (array_get parts 0))
           (JS.div60 (JS.orZero (JS.parseInt (array_get parts 1))))
  else if JS.contains "W" tmp then
    let parts := JS.split "W" tmp in
    JS.neg (JS.add (JS.parseInt (array_get parts 0))
                   (JS.div60 (JS.orZero (JS.parseInt (array_get parts 1)))))
  else JS.orZero (JS.parseFloat (list_ascii_of_string input)).


(** ** The classifications on binary64 numbers

    [mod360], [calcZodiac] and the index of [calcNakshatra] once more, on
    the binary64 numbers of the language: the operators are those of IEEE
    754 with rounding to nearest, the literals are the nearest binary64
    numbers.  [Math.floor] is read off the significand and the exponent of
    its argument. *)

Module B64.

Import PrimFloat SpecFloat FloatOps.

Local Open Scope float_scope.

Definition geb (x y : float) : bool := y <=? x.
Definition gtb (x y : float) : bool := y <? x.

Infix ">=?" := geb (at level 70, no associativity) : float_scope.
Infix ">?" := gtb (at level 70, no associativity) : float_scope.

(** An integer below 2^53 in size as a binary64 number. *)
Definition of_Z (n : Z) : float :=
  if (n <? 0)%Z then - of_uint63 (Uint63.of_Z (- n))
  else of_uint63 (Uint63.of_Z n).

(** [Math.floor]: a number whose exponent is not negative is an integer;
    otherwise the significand is shifted down and, for a negative number
    that is no integer, stepped away from zero.  Zeros, infinities and
    [NaN] are returned as they are. *)
Definition Math_floor (x : float) : float :=
  match Prim2SF x with
  | S754_finite s m e =>
      if (0 <=? e)%Z then x
      else
        let q := Z.shiftr (Zpos m) (- e) in
        let whole := (Z.shiftl q (- e) =? Zpos m)%Z in
        if s then - of_Z (if whole then q else q + 1) else of_Z q
  | _ => x
  end.

Definition Math_ceil (x : float) : float := - Math_floor (- x).

Definition _abs (x : float) : float :=
  if x >=? 0 then Math_floor x else Math_ceil x.

Definition mod360 (x : float) : float :=
  let a := 360 * ((x / 360) - _abs (x / 360)) in
  if a <? 0 then a + 360 else a.

Definition calcZodiac (deg : float) : Z :=
  let d := mod360 deg in
  if (d >=? 0) && (d <=? 30) then 1%Z
  else if (d >? 30) && (d <=? 60) then 2%Z
  else if (d >? 60) && (d <=? 90) then 3%Z
  else if (d >? 90) && (d <=? 120) then 4%Z
  else if (d >? 120) && (d <=? 150) then 5%Z
  else if (d >? 150) && (d <=? 180) then 6%Z
  else if (d >? 180) && (d <=? 210) then 7%Z
  else if (d >? 210) && (d <=? 240) then 8%Z
  else if (d >? 240) && (d <=? 270) then 9%Z
  else if (d >? 270) && (d <=? 300) then 10%Z
  else if (d >? 300) && (d <=? 330) then 11%Z
  else 12%Z.

(** The integer a binary64 number is, for one that is an integer: the
    value [Math.floor] hands to [%].  There is none for an infinity or
    [NaN]. *)
Definition integerValue (x : float) : option Z :=
  match Prim2SF x with
  | S754_zero _ => Some 0%Z
  | S754_finite s m e =>
      let n := if (0 <=? e)%Z then Z.shiftl (Zpos m) e
               else Z.shiftr (Zpos m) (- e) in
      Some (if s then (- n)%Z else n)
  | _ => None
  end.

(** The span of a nakshatra: the binary64 number nearest to 13.3333. *)
Definition span : float := 0x1.aaaa64c2f837bp+3.

(** Lines 253-254; the remainder by 27 of an integer is exact.  [None]
    stands for the [NaN] the code gets out of an infinity or a [NaN]. *)
Definition nakshatraIndex (deg : float) : option Z :=
  let d := if deg <? 0 then deg + 360 else deg in
  option_map (fun n => Z.rem n 27) (integerValue (Math_floor (d / span))).

End B64.
(** * Notions used to state the properties *)

(** The cascade of [calcZodiac] on a normalised degree. *)
Definition band (d : Q) : Z :=
  if (d >=? 0) && (d <=? 30) then 1%Z
  else if (d >? 30) && (d <=? 60) then 2%Z
  else if (d >? 60) && (d <=? 90) then 3%Z
  else if (d >? 90) && (d <=? 120) then 4%Z
  else if (d >? 120) && (d <=? 150) then 5%Z
  else if (d >? 150) && (d <=? 180) then 6%Z
  else if (d >? 180) && (d <=? 210) then 7%Z
  else if (d >? 210) && (d <=? 240) then 8%Z
  else if (d >? 240) && (d <=? 270) then 9%Z
  else if (d >? 270) && (d <=? 300) then 10%Z
  else if (d >? 300) && (d <=? 330) then 11%Z
  else 12%Z.


(** Whether two runs of the index computation both return, with the same
    index. *)
Definition sameIndex (a b : option Z) : bool :=
  match a, b with
  | Some i, Some j => (i =? j)%Z
  | _, _ => false
  end.

(** The multiples of 30 from 30 to 330. *)
Definition innerBoundaries : list Z := [1; 2; 3; 4; 5; 6; 7; 8; 9; 10; 11]%Z.

(** The sign of house [i] for an ascendant in sign [ascSign]. *)
Definition rotatedSign (ascSign i : Z) : Z := ((ascSign + i - 1) mod 12 + 1)%Z.

Definition houseIndices : list Z := [0; 1; 2; 3; 4; 5; 6; 7; 8; 9; 10; 11]%Z.

Definition signNumbers : list Z := [1; 2; 3; 4; 5; 6; 7; 8; 9; 10; 11; 12]%Z.



(** The short names of the ten bodies, in the order of their indices. *)
Definition bodyNames : list string :=
  [ "As"; "Su"; "Mo"; "Ma"; "Me"; "Ju"; "Ve"; "Sa"; "Ra"; "Ke" ]%string.

(** The test of line 448 for house [i] and body [p]. *)
Definition inHouse (rashis : list Z) (i : Z) (p : Planet.t) : bool :=
  match array_get rashis i with
  | Some r => (r =? Planet.rasizn p)%Z
  | None => false
  end.

(** The body list of house [i] as a selection among the bodies. *)
Definition houseOf (rashis : list Z) (planets : list Planet.t) (i : Z) : list string :=
  map Planet.name (filter (inHouse rashis i) planets).

(** The houses, among the twelve, whose body list holds the name [nm]. *)
Definition holds (nm : string) (house : list string) : bool :=
  existsb (String.eqb nm) house.

Definition housesHolding (nm : string) (houses : list (list string)) : list Z :=
  filter (fun i => match array_get houses i with
                   | Some house => holds nm house
                   | None => false
                   end) houseIndices.

(** What every chart the code returns satisfies. *)
Definition chartInvariant (chart : Chart.t) : Prop :=
  exists pAS pSU pMO pMA pME pJU pVE pSA pRA pKE,
    Chart.planets chart = [pAS; pSU; pMO; pMA; pME; pJU; pVE; pSA; pRA; pKE]
    /\ map Planet.name (Chart.planets chart) = bodyNames
    /\ Forall (fun p => (1 <= Planet.rasizn p <= 12)%Z) (Chart.planets chart)
    /\ Chart.rashis chart = calcRashis (Planet.rasizn pAS)
    /\ Planet.ra pKE = mod360 (Planet.ra pRA + 180)
    /\ Chart.houses chart
       = map (houseOf (Chart.rashis chart) (Chart.planets chart)) houseIndices.

(** Rounding to the nearest integer, a half going up. *)
Definition roundHalfUp (x : Q) : Z := Qfloor (x + 0.5).

(** Rounding to the nearest integer, a half going down. *)
Definition roundHalfDown (x : Q) : Z := Qceiling (x - 0.5).

(** Noon of 1900-01-01 at a time zone of -0.09375 hours (3/32 of an hour
    west): every step of the day count is exact in binary as well, and the
    day count is 2415021.00390625, whose 8th decimal is a 5 followed by
    nothing. *)
Definition noon1900 : BirthData.t :=
  {| BirthData.name := "tie";
     BirthData.date := {| Date.getFullYear := 1900; Date.getMonth := 0; Date.getDate := 1 |};
     BirthData.time := {| Clock.hours := 12; Clock.minutes := 0 |};
     BirthData.tz := -0.09375;
     BirthData.lat := 0;
     BirthData.lon := 0 |}.

(** The bodies with an entry in [elements]. *)
Definition tabulatedBodies : list Z := [SU; MO; MA; ME; JU; VE; SA].

(** Noon of 2000-01-01, universal time, at 28.6 N 77.2 E. *)
Definition j2000 : BirthData.t :=
  {| BirthData.name := "J2000";
     BirthData.date := {| Date.getFullYear := 2000; Date.getMonth := 0; Date.getDate := 1 |};
     BirthData.time := {| Clock.hours := 12; Clock.minutes := 0 |};
     BirthData.tz := 0;
     BirthData.lat := 28.6;
     BirthData.lon := 77.2 |}.

(** Stand-ins for the transcendental functions, to run the chart. *)
Definition flat1 (x : Q) : Q := 0.
Definition flat2 (y x : Q) : Q := 0.

(** The birth data with the clock and the time zone both moved by [shift]
    hours: the same instant, told in another zone. *)
Definition inZone (birthData : BirthData.t) (shift : Q) : BirthData.t :=
  {| BirthData.name := BirthData.name birthData;
     BirthData.date := BirthData.date birthData;
     BirthData.time :=
       {| Clock.hours := Clock.hours (BirthData.time birthData) + shift;
          Clock.minutes := Clock.minutes (BirthData.time birthData) |};
     BirthData.tz := BirthData.tz birthData + shift;
     BirthData.lat := BirthData.lat birthData;
     BirthData.lon := BirthData.lon birthData |}.













(** * Properties *)

(** ** The definitions on concrete inputs *)

Example calcZodiac_samples :
  calcZodiac 29.9 = 1%Z /\ calcZodiac 59.99 = 2%Z /\ calcZodiac 330.5 = 12%Z
  /\ calcZodiac (-30) = 11%Z /\ calcZodiac 725 = 1%Z.
Proof. repeat split. Qed.

Example calcDayNumber_j2000 : calcDayNumber j2000 == 0.
Proof. reflexivity. Qed.

Example calcJulianDate_j2000 : calcJulianDate j2000 == 2451545.0000448.
Proof. reflexivity. Qed.

Example calcNakshatra_samples :
  calcNakshatra 0 = Some (Nakshatra.mk "Ashvini" "Ke" 1)
  /\ calcNakshatra 13.33325 = Some (Nakshatra.mk "Ashvini" "Ke" 4)
  /\ calcNakshatra 200 = Some (Nakshatra.mk "Vishakha" "Ju" 1)
  /\ calcNakshatra 359.9995 = Some (Nakshatra.mk "Ashvini" "Ke" 1).
Proof. repeat split. Qed.

Example calcRashis_samples :
  calcRashis 1 = [1; 2; 3; 4; 5; 6; 7; 8; 9; 10; 11; 12]%Z
  /\ calcRashis 10 = [10; 11; 12; 1; 2; 3; 4; 5; 6; 7; 8; 9]%Z.
Proof. split; reflexivity. Qed.

(** The chart of [j2000] with the stand-ins: signs of the ten bodies and
    the houses they fall in. *)
Example chart_j2000 :
  option_map (fun c => (Chart.rashis c, map Planet.rasizn (Chart.planets c),
                        Chart.houses c))
             (calculateChart flat1 flat1 flat1 flat2 j2000)
  = Some ([12; 1; 2; 3; 4; 5; 6; 7; 8; 9; 10; 11]%Z,
          [12; 9; 7; 12; 8; 1; 6; 1; 4; 10]%Z,
          [["As"; "Ma"]; ["Ju"; "Sa"]; []; []; ["Ra"]; []; ["Ve"]; ["Mo"];
           ["Me"]; ["Su"]; ["Ke"]; []]%string).
Proof. vm_compute. reflexivity. Qed.

(** ** Comparisons and rounding on rationals *)

Lemma leb_true (x y : Q) : (x <=? y) = true <-> x <= y.
Proof. apply Qle_bool_iff. Qed.

Lemma leb_false (x y : Q) : (x <=? y) = false <-> y < x.
Proof.
  unfold Num.leb. split; intro H.
  - apply Qnot_le_lt. intro Hle. apply Qle_bool_iff in Hle. congruence.
  - destruct (Qle_bool x y) eqn:E; [|reflexivity].
    apply Qle_bool_iff in E. exfalso. apply (Qlt_not_le _ _ H E).
Qed.

Lemma ltb_true (x y : Q) : (x <? y) = true <-> x < y.
Proof.
  unfold Num.ltb. rewrite negb_true_iff. apply (leb_false y x).
Qed.

Lemma ltb_false (x y : Q) : (x <? y) = false <-> y <= x.
Proof.
  unfold Num.ltb. rewrite negb_false_iff. apply (leb_true y x).
Qed.

(** Case analysis on every comparison of the goal, leaving the order
    facts among the hypotheses. *)
Ltac split_cmp :=
  repeat match goal with
  | |- context [ Num.gtb ?x ?y ] => change (Num.gtb x y) with (Num.ltb y x)
  | |- context [ Num.geb ?x ?y ] => change (Num.geb x y) with (Num.leb y x)
  | |- context [ Num.leb ?x ?y ] =>
      let E := fresh "E" in
      destruct (Num.leb x y) eqn:E;
      [ apply leb_true in E | apply leb_false in E ]
  | |- context [ Num.ltb ?x ?y ] =>
      let E := fresh "E" in
      destruct (Num.ltb x y) eqn:E;
      [ apply ltb_true in E | apply ltb_false in E ]
  end.

Lemma floor_bounds (x : Q) :
  inject_Z (Qfloor x) <= x /\ x < inject_Z (Qfloor x) + 1.
Proof.
  split; [apply Qfloor_le|].
  generalize (Qlt_floor x). rewrite inject_Z_plus. trivial.
Qed.

Lemma ceiling_bounds (x : Q) :
  x <= inject_Z (Qceiling x) /\ inject_Z (Qceiling x) - 1 < x.
Proof.
  split; [apply Qle_ceiling|].
  generalize (Qceiling_lt x). unfold Zminus. rewrite inject_Z_plus. trivial.
Qed.

(** An integer caught in a half-open unit interval around [x] is its floor. *)
Lemma floor_unique (x : Q) (n : Z) :
  inject_Z n <= x -> x < inject_Z n + 1 -> Qfloor x = n.
Proof.
  intros Hlo Hhi. destruct (floor_bounds x) as [Flo Fhi].
  assert (H1 : (n < Qfloor x + 1)%Z).
  { rewrite Zlt_Qlt, inject_Z_plus. change (inject_Z 1) with 1. lra. }
  assert (H2 : (Qfloor x < n + 1)%Z).
  { rewrite Zlt_Qlt, inject_Z_plus. change (inject_Z 1) with 1. lra. }
  lia.
Qed.


(** The ceiling is the floor, or one more when [x] is not an integer. *)
Lemma ceiling_floor (x : Q) :
  (Qceiling x = Qfloor x /\ x == inject_Z (Qfloor x))
  \/ (Qceiling x = (Qfloor x + 1)%Z /\ inject_Z (Qfloor x) < x).
Proof.
  destruct (floor_bounds x) as [Flo Fhi].
  destruct (ceiling_bounds x) as [Clo Chi].
  assert (H1 : (Qfloor x <= Qceiling x)%Z) by (rewrite Zle_Qle; lra).
  assert (H2 : (Qceiling x < Qfloor x + 2)%Z).
  { rewrite Zlt_Qlt, inject_Z_plus. change (inject_Z 2) with 2. lra. }
  destruct (Z.eq_dec (Qceiling x) (Qfloor x)) as [E|N].
  - left. split; [exact E|]. rewrite E in Clo. lra.
  - right. assert (E : Qceiling x = (Qfloor x + 1)%Z) by lia.
    split; [exact E|]. rewrite E, inject_Z_plus in Chi. change (inject_Z 1) with 1 in Chi. lra.
Qed.

(** ** Normalisation of angles *)

(** [x - _abs x] is the fractional part of [x], possibly less one. *)
Lemma mod_turn (p x : Q) :
  0 < p ->
  (let a := p * ((x / p) - _abs (x / p)) in if a <? 0 then a + p else a)
  == x - p * inject_Z (Qfloor (x / p)).
Proof.
  intros Hp. cbv zeta.
  assert (Hx : p * (x / p) == x) by (field; lra).
  unfold _abs, Num.Math_floor, Num.Math_ceil.
  destruct (floor_bounds (x / p)) as [Flo Fhi].
  set (y := x / p) in *.
  change (y >=? 0.0) with (0.0 <=? y).
  destruct (0.0 <=? y) eqn:Ey.
  - apply leb_true in Ey. split_cmp; nra.
  - apply leb_false in Ey.
    destruct (ceiling_floor y) as [[Ec Hy]|[Ec Hy]]; rewrite Ec.
    + split_cmp; nra.
    + rewrite inject_Z_plus. change (inject_Z 1) with 1. split_cmp; nra.
Qed.

Lemma mod360_floor (x : Q) : mod360 x == x - 360 * inject_Z (Qfloor (x / 360)).
Proof. unfold mod360. apply (mod_turn 360 x). lra. Qed.



Lemma mod360_compat (x y : Q) : x == y -> mod360 x == mod360 y.
Proof.
  intro E. rewrite !mod360_floor.
  assert (E' : x / 360 == y / 360) by (rewrite E; reflexivity).
  rewrite (Qfloor_comp _ _ E'), E. reflexivity.
Qed.

(** ** Zodiac sign *)


Lemma calcZodiac_band (deg : Q) : calcZodiac deg = band (mod360 deg).
Proof. reflexivity. Qed.

Lemma band_range (d : Q) : (1 <= band d <= 12)%Z.
Proof.
  unfold band.
  repeat match goal with
         | |- context [ if ?c then _ else _ ] => destruct c
         end; lia.
Qed.


Lemma sign_cases (n : Z) :
  (1 <= n <= 12)%Z ->
  (n = 1 \/ n = 2 \/ n = 3 \/ n = 4 \/ n = 5 \/ n = 6 \/ n = 7
   \/ n = 8 \/ n = 9 \/ n = 10 \/ n = 11 \/ n = 12)%Z.
Proof. lia. Qed.

Ltac each_sign H :=
  apply sign_cases in H; repeat (destruct H as [H|H]); subst.


Lemma calcZodiac_in_range (L : Q) : (1 <= calcZodiac L <= 12)%Z.
Proof. rewrite calcZodiac_band. apply band_range. Qed.



Section Binary64Zodiac.

Import PrimFloat.
Local Open Scope float_scope.


(** Away from the thresholds the binary64 run keeps the sign through the
    turns: at 45 degrees, and 2^-19 of a degree (about 0.000002) above 30
    and below 60, for every [k] from -2777 to 2777, which are the turns
    that stay within a million degrees. *)
Lemma calcZodiac_binary64_turns :
  forallb (fun k =>
             (B64.calcZodiac (45 + 360 * B64.of_Z k) =? 2)%Z
             && (B64.calcZodiac (30 + 0x1p-19 + 360 * B64.of_Z k) =? 2)%Z
             && (B64.calcZodiac (60 - 0x1p-19 + 360 * B64.of_Z k) =? 2)%Z)
          (map (fun n => Z.of_nat n) (seq 0 2778)
           ++ map (fun n => (- Z.of_nat n)%Z) (seq 0 2778))
  = true.
Proof. vm_compute. reflexivity. Qed.

End Binary64Zodiac.




(** C3, at the degree 360.0: the normalisation takes 360 to 0, which is in
    the first band, so the sign is 1 and not 12. *)
Lemma calcZodiac_360_is_not_12 :
  calcZodiac 360.0 = 1%Z /\ calcZodiac 360.0 <> 12%Z.
Proof. split; [reflexivity | discriminate]. Qed.

(** C3, as the code has it. [calcZodiac 0.0 = 1], [calcZodiac 30.0 = 1],
    [calcZodiac 30.0001 = 2]; a boundary degree [n * 30] for [n] from 1 to
    11 belongs to band [n], not to band [n + 1]; the boundary [12 * 30 =
    360.0] is normalised to 0 and belongs to band 1. *)
Theorem calcZodiac_boundaries :
  calcZodiac 0.0 = 1%Z
  /\ calcZodiac 30.0 = 1%Z
  /\ calcZodiac 30.0001 = 2%Z
  /\ calcZodiac 360.0 = 1%Z
  /\ Forall (fun n => calcZodiac (inject_Z n * 30) = n) innerBoundaries.
Proof.
  repeat split. repeat constructor.
Qed.

(** ** House-to-sign rotation *)



Lemma calcRashis_rotation (ascSign : Z) :
  (1 <= ascSign <= 12)%Z ->
  calcRashis ascSign = map (rotatedSign ascSign) houseIndices.
Proof. intro H. each_sign H; reflexivity. Qed.

(** ** Nakshatra *)














Section Binary64Nakshatra.

Import PrimFloat.
Local Open Scope float_scope.

(** The binary64 run where the index is not kept: below -360, at 13.333
    and a turn on, and where it leaves [nakshatraIndex_next_turn]: at
    13.332399999999993 (four binary64 numbers below 13.3324) the index is
    0 and a turn on it is 1, since 373.3324 is the nearest binary64
    number to the sum; at the whole degree 32156467473257, 13.3282 into
    its span, the quotient by the span is rounded across an integer. *)
Lemma nakshatraIndex_binary64_samples :
  B64.nakshatraIndex (-400) = Some (-4)%Z
  /\ B64.nakshatraIndex 0x1.aaa7ef9db22d1p+3 = Some 0%Z
  /\ B64.nakshatraIndex (0x1.aaa7ef9db22d1p+3 + 360) = Some 1%Z
  /\ B64.nakshatraIndex 0x1.aaa3055326178p+3 = Some 0%Z
  /\ B64.nakshatraIndex (0x1.aaa3055326178p+3 + 360) = Some 1%Z
  /\ B64.nakshatraIndex 32156467473257 = Some 10%Z
  /\ B64.nakshatraIndex (32156467473257 + 360) = Some 11%Z.
Proof. vm_compute. repeat split. Qed.

(** Within the bounds of [nakshatraIndex_next_turn] cut back by 0.0001
    and to a million degrees, the binary64 run keeps the index through a
    turn: at 13.33229 into every fifteenth span up to a million degrees. *)
Lemma nakshatraIndex_binary64_turn :
  forallb (fun j =>
             let D := B64.span * B64.of_Z (15 * Z.of_nat j) + 0x1.aaa21ea359360p+3 in
             sameIndex (B64.nakshatraIndex (D + 360)) (B64.nakshatraIndex D))
          (seq 0 5000)
  = true.
Proof. vm_compute. reflexivity. Qed.

End Binary64Nakshatra.




(** ** The loops of the house assignment *)

Lemma skipn_nth_error {A : Type} (l : list A) (k : nat) (x : A) :
  nth_error l k = Some x -> skipn k l = x :: skipn (S k) l.
Proof.
  revert l. induction k as [|k IH]; intros [|y l] H; try discriminate.
  - injection H as ->. reflexivity.
  - simpl in H. apply IH in H. exact H.
Qed.

Lemma array_get_nat {A : Type} (l : list A) (j : Z) :
  (0 <= j)%Z -> array_get l j = nth_error l (Z.to_nat j).
Proof.
  intro H. unfold array_get. destruct (j <? 0)%Z eqn:E; [lia | reflexivity].
Qed.

(** The inner loop appends to [house] the names of the bodies it passes
    that are in house [i]. *)
Lemma houseLoop_filter (rashis : list Z) (planets : list Planet.t) (i : Z) (n : nat) :
  forall (j : Z) (house : list string),
    (0 <= j)%Z -> (Z.to_nat j + n <= List.length planets)%nat ->
    houseLoop n rashis planets i j house
    = Some (house ++ map Planet.name
                         (filter (inHouse rashis i)
                                 (firstn n (skipn (Z.to_nat j) planets)))).
Proof.
  induction n as [|n IH]; intros j house Hj Hlen.
  - simpl. rewrite app_nil_r. reflexivity.
  - simpl houseLoop. rewrite (array_get_nat planets j Hj).
    destruct (nth_error planets (Z.to_nat j)) as [p|] eqn:Ep.
    + rewrite IH by lia.
      rewrite (skipn_nth_error _ _ _ Ep).
      replace (Z.to_nat (j + 1)) with (S (Z.to_nat j)) by lia.
      simpl firstn. simpl filter. fold (inHouse rashis i p).
      destruct (inHouse rashis i p); simpl.
      * rewrite <- app_assoc. reflexivity.
      * reflexivity.
    + apply nth_error_None in Ep. lia.
Qed.

Lemma houseLoop_all (rashis : list Z) (planets : list Planet.t) (i : Z) :
  List.length planets = 10%nat ->
  houseLoop 10 rashis planets i 0 [] = Some (houseOf rashis planets i).
Proof.
  intro H. rewrite houseLoop_filter by (simpl; lia).
  change (Z.to_nat 0) with 0%nat. rewrite skipn_O, <- H, firstn_all.
  reflexivity.
Qed.

Lemma calcHouses_select (rashis : list Z) (planets : list Planet.t) :
  List.length planets = 10%nat ->
  calcHouses rashis planets = Some (map (houseOf rashis planets) houseIndices).
Proof.
  intro H. unfold calcHouses, housesLoop.
  rewrite !(houseLoop_all rashis planets _ H). reflexivity.
Qed.

Lemma rashisLoop_length (n : nat) :
  forall asc i x rashis,
    List.length (rashisLoop n asc i x rashis) = (List.length rashis + n)%nat.
Proof.
  induction n as [|n IH]; intros asc i x rashis; simpl.
  - lia.
  - destruct (asc + i >? 12)%Z; rewrite IH, length_app; simpl; lia.
Qed.

(** A body is named in the selection of a house exactly when it passes
    the test, the names being distinct. *)
Lemma holds_absent (nm : string) (house : list string) :
  ~ In nm house -> holds nm house = false.
Proof.
  intro H. unfold holds.
  destruct (existsb (String.eqb nm) house) eqn:E; [|reflexivity].
  apply existsb_exists in E. destruct E as [x [Hx Ex]].
  apply String.eqb_eq in Ex. subst x. contradiction.
Qed.

Lemma holds_select (f : Planet.t -> bool) (ps : list Planet.t) (p : Planet.t) :
  NoDup (map Planet.name ps) -> In p ps ->
  holds (Planet.name p) (map Planet.name (filter f ps)) = f p.
Proof.
  induction ps as [|q ps IH]; intros Hnd Hin; [contradiction|].
  simpl in Hnd. inversion Hnd as [|? ? Hq Hps]; subst.
  assert (Hsub : forall nm, In nm (map Planet.name (filter f ps))
                            -> In nm (map Planet.name ps)).
  { intros nm H. apply in_map_iff in H. destruct H as [x [Ex Hx]].
    apply filter_In in Hx. apply in_map_iff. exists x. tauto. }
  destruct Hin as [->|Hin].
  - simpl. destruct (f p) eqn:Ef.
    + simpl. rewrite String.eqb_refl. reflexivity.
    + apply holds_absent. intro H. apply Hq, Hsub, H.
  - assert (Hne : Planet.name p <> Planet.name q).
    { intro E. apply Hq. rewrite <- E. apply in_map, Hin. }
    apply String.eqb_neq in Hne.
    simpl. destruct (f q); simpl; [rewrite Hne; simpl|]; apply IH; assumption.
Qed.

Lemma housesHolding_select (nm : string) (g : Z -> list string) :
  housesHolding nm (map g houseIndices)
  = filter (fun i => holds nm (g i)) houseIndices.
Proof. reflexivity. Qed.

(** Each sign is the sign of exactly one house of the rotation. *)
Lemma rotation_one_house (ascSign s : Z) :
  (1 <= ascSign <= 12)%Z -> (1 <= s <= 12)%Z ->
  exists k,
    filter (fun i => match array_get (map (rotatedSign ascSign) houseIndices) i with
                     | Some r => (r =? s)%Z
                     | None => false
                     end) houseIndices = [k]
    /\ rotatedSign ascSign k = s.
Proof.
  intros Ha Hs. each_sign Ha; each_sign Hs; eexists; split; reflexivity.
Qed.

Lemma rotation_permutation (ascSign : Z) :
  (1 <= ascSign <= 12)%Z ->
  Permutation (map (rotatedSign ascSign) houseIndices) signNumbers.
Proof.
  intro H. each_sign H;
    match goal with
    | |- Permutation (map (rotatedSign ?k) _) _ =>
        exact (Permutation_app_comm (skipn (Z.to_nat (k - 1)) signNumbers)
                                    (firstn (Z.to_nat (k - 1)) signNumbers))
    end.
Qed.

(** ** The chart *)

(** What a record that has been built holds: the fields are read off the
    block, whatever the degree is. *)
Lemma bodyRecord_inv (name : string) (index : Z) (deg : Q) (p : Planet.t) :
  bodyRecord name index deg = Some p ->
  Planet.name p = name /\ Planet.ra p = deg /\ Planet.rasizn p = calcZodiac deg.
Proof.
  unfold bodyRecord. destruct (calcNakshatra deg); [|discriminate].
  intro E. injection E as <-. repeat split.
Qed.

Lemma ascendantRecord_inv (ascDeg : Q) (ascZodiac : Z) (p : Planet.t) :
  ascendantRecord ascDeg ascZodiac = Some p ->
  Planet.name p = "As"%string /\ Planet.rasizn p = ascZodiac.
Proof.
  unfold ascendantRecord. destruct (calcNakshatra (mod360 ascDeg)); [|discriminate].
  intro E. injection E as <-. split; reflexivity.
Qed.

(** One step of the chart computation that has not raised. *)
Ltac step_returned :=
  match goal with
  | |- match ?m with Some _ => _ | None => None end = Some _ -> _ =>
      let p := fresh "p" in
      let E := fresh "E" in
      destruct m as [p|] eqn:E; [|discriminate]
  end.

Section ChartProperties.

Variable Math_sin Math_cos Math_tan : Q -> Q.
Variable Math_atan2 : Q -> Q -> Q.

(** A chart the computation returns has the ten bodies in their slots,
    signs within 1..12, the rotation of the ascendant's sign, Ketu out of
    Rahu, and the houses selected by sign.  Nothing is said of a run that
    raises. *)
Lemma calculateChart_invariant (birthData : BirthData.t) (chart : Chart.t) :
  calculateChart Math_sin Math_cos Math_tan Math_atan2 birthData = Some chart ->
  chartInvariant chart
  /\ option_map Planet.ra (array_get (Chart.planets chart) RA)
     = Some (mod360 (calcMoonAscendingNode birthData)).
Proof.
  unfold calculateChart.
  set (ay := calcAyanamsa (BirthData.date birthData)).
  set (dn := calcDayNumber birthData).
  set (ascDeg := calcAscendant Math_sin Math_cos Math_tan Math_atan2 birthData - ay).
  set (moon := calcMoonPosition Math_sin birthData).
  set (node := calcMoonAscendingNode birthData).
  cbv beta iota zeta delta [bind].
  do 10 step_returned.
  rewrite calcHouses_select by reflexivity.
  intro H. injection H as <-.
  apply ascendantRecord_inv in E. destruct E as [N0 S0].
  repeat match goal with
         | H : bodyRecord _ _ _ = Some _ |- _ =>
             apply bodyRecord_inv in H; destruct H as (? & ? & ?)
         end.
  cbn [Chart.planets Chart.rashis Chart.houses].
  split.
  - exists p, p0, p1, p2, p3, p4, p5, p6, p7, p8.
    cbn [Chart.planets Chart.rashis Chart.houses].
    split; [reflexivity|].
    split; [unfold bodyNames; cbn [map]; congruence|].
    split.
    { repeat (apply Forall_cons;
              [ match goal with
                | H : Planet.rasizn ?q = _ |- (1 <= Planet.rasizn ?q <= 12)%Z =>
                    rewrite H; apply calcZodiac_in_range
                end | ]).
      apply Forall_nil. }
    split; [rewrite S0; reflexivity|].
    split; [|reflexivity].
    repeat match goal with
           | H : Planet.ra _ = _ |- _ => rewrite H
           end.
    reflexivity.
  - change (array_get [p; p0; p1; p2; p3; p4; p5; p6; p7; p8] RA) with (Some p7).
    cbn [option_map]. congruence.
Qed.

(** C1. In the chart [calculateChart] returns, the house-to-sign array
    has, at each house index [i] of 0..11, the sign
    [((ascSign + i - 1) mod 12) + 1], where [ascSign] is the sign number
    of the ascendant; it is a permutation of 1..12 and starts with
    [ascSign].  (A run that raises, as on a latitude that is [NaN],
    returns no chart.) *)
Theorem rashis_rotate_from_ascendant (birthData : BirthData.t) (chart : Chart.t) :
  calculateChart Math_sin Math_cos Math_tan Math_atan2 birthData = Some chart ->
  exists asc,
    array_get (Chart.planets chart) AS = Some asc
    /\ Planet.name asc = "As"%string
    /\ Chart.rashis chart = map (rotatedSign (Planet.rasizn asc)) houseIndices
    /\ Permutation (Chart.rashis chart) signNumbers
    /\ array_get (Chart.rashis chart) 0 = Some (Planet.rasizn asc).
Proof.
  intro E. destruct (calculateChart_invariant birthData chart E) as [I _].
  destruct I as (pAS & pSU & pMO & pMA & pME & pJU & pVE & pSA & pRA & pKE
                 & Hp & Hn & Hs & Hr & _).
  exists pAS.
  assert (Ha : (1 <= Planet.rasizn pAS <= 12)%Z).
  { rewrite Hp in Hs. inversion Hs. assumption. }
  rewrite Hr, (calcRashis_rotation _ Ha), Hp.
  split; [reflexivity|].
  split; [rewrite Hp in Hn; injection Hn; auto|].
  split; [reflexivity|].
  split; [apply rotation_permutation, Ha|].
  revert Ha. generalize (Planet.rasizn pAS). intros a Ha.
  each_sign Ha; reflexivity.
Qed.

(** C2. In the chart [calculateChart] returns, the longitude of Ketu is
    [mod360] of the longitude of Rahu plus 180, the longitude of Rahu
    being the normalised ascending node of the Moon.  (A run that raises
    returns no chart.) *)
Theorem ketu_opposite_rahu (birthData : BirthData.t) (chart : Chart.t) :
  calculateChart Math_sin Math_cos Math_tan Math_atan2 birthData = Some chart ->
  exists rahu ketu,
    array_get (Chart.planets chart) RA = Some rahu
    /\ array_get (Chart.planets chart) KE = Some ketu
    /\ Planet.name rahu = "Ra"%string
    /\ Planet.name ketu = "Ke"%string
    /\ Planet.ra rahu = mod360 (calcMoonAscendingNode birthData)
    /\ Planet.ra ketu = mod360 (Planet.ra rahu + 180).
Proof.
  intro E. destruct (calculateChart_invariant birthData chart E) as [I Hra].
  destruct I as (pAS & pSU & pMO & pMA & pME & pJU & pVE & pSA & pRA & pKE
                 & Hp & Hn & _ & _ & Hk & _).
  exists pRA, pKE. rewrite Hp in *.
  injection Hn as _ _ _ _ _ _ _ _ NR NK.
  simpl in Hra. injection Hra as Hra.
  repeat split; assumption || reflexivity.
Qed.

(** C9. The chart [calculateChart] returns holds the ten bodies under
    their short names and twelve houses, and each of the ten names is in
    the body list of exactly one house.  (A run that raises returns no
    chart.) *)
Theorem each_body_in_one_house (birthData : BirthData.t) (chart : Chart.t) :
  calculateChart Math_sin Math_cos Math_tan Math_atan2 birthData = Some chart ->
  map Planet.name (Chart.planets chart) = bodyNames
  /\ List.length (Chart.houses chart) = 12%nat
  /\ Forall (fun nm => exists i, housesHolding nm (Chart.houses chart) = [i])
            bodyNames.
Proof.
  intro E. destruct (calculateChart_invariant birthData chart E) as [I _].
  destruct I as (pAS & pSU & pMO & pMA & pME & pJU & pVE & pSA & pRA & pKE
                 & Hp & Hn & Hs & Hr & _ & Hh).
  split; [exact Hn|].
  split; [rewrite Hh; reflexivity|].
  assert (Ha : (1 <= Planet.rasizn pAS <= 12)%Z).
  { rewrite Hp in Hs. inversion Hs. assumption. }
  assert (Hnd : NoDup (map Planet.name (Chart.planets chart))).
  { rewrite Hn. unfold bodyNames.
    repeat (constructor; [simpl; intuition discriminate|]). constructor. }
  rewrite <- Hn. apply Forall_map, Forall_forall. intros p Hin.
  rewrite Hh, housesHolding_select.
  assert (Hsp : (1 <= Planet.rasizn p <= 12)%Z).
  { rewrite Forall_forall in Hs. apply Hs, Hin. }
  destruct (rotation_one_house _ _ Ha Hsp) as [k [Hk _]].
  exists k. rewrite <- Hk. apply filter_ext. intro i.
  unfold houseOf. rewrite (holds_select _ _ _ Hnd Hin).
  unfold inHouse. rewrite Hr, (calcRashis_rotation _ Ha). reflexivity.
Qed.

End ChartProperties.

(** The chart of [j2000], run with the stand-ins, is returned. *)
Lemma chart_j2000_returned :
  calculateChart flat1 flat1 flat1 flat2 j2000 <> None.
Proof. vm_compute. discriminate. Qed.

(** The rotation on the chart of [j2000]: the ascendant is in sign 12
    and the houses run 12, 1, ..., 11. *)
Lemma rashis_rotate_from_ascendant_j2000 :
  exists chart asc,
    calculateChart flat1 flat1 flat1 flat2 j2000 = Some chart
    /\ array_get (Chart.planets chart) AS = Some asc
    /\ Chart.rashis chart = map (rotatedSign (Planet.rasizn asc)) houseIndices
    /\ Permutation (Chart.rashis chart) signNumbers.
Proof.
  destruct (calculateChart flat1 flat1 flat1 flat2 j2000) as [chart|] eqn:E.
  - destruct (rashis_rotate_from_ascendant flat1 flat1 flat1 flat2 j2000 chart E)
      as [asc [H1 [_ [H2 [H3 _]]]]].
    exists chart, asc. repeat split; assumption.
  - exfalso. exact (chart_j2000_returned E).
Defined.

(** Rahu and Ketu on the chart of [j2000]. *)
Lemma ketu_opposite_rahu_j2000 :
  exists chart rahu ketu,
    calculateChart flat1 flat1 flat1 flat2 j2000 = Some chart
    /\ array_get (Chart.planets chart) RA = Some rahu
    /\ array_get (Chart.planets chart) KE = Some ketu
    /\ Planet.ra ketu = mod360 (Planet.ra rahu + 180).
Proof.
  destruct (calculateChart flat1 flat1 flat1 flat2 j2000) as [chart|] eqn:E.
  - destruct (ketu_opposite_rahu flat1 flat1 flat1 flat2 j2000 chart E)
      as [rahu [ketu [H1 [H2 [_ [_ [_ H3]]]]]]].
    exists chart, rahu, ketu. repeat split; assumption.
  - exfalso. exact (chart_j2000_returned E).
Defined.

(** The houses of the ten bodies on the chart of [j2000]. *)
Lemma each_body_in_one_house_j2000 :
  exists chart,
    calculateChart flat1 flat1 flat1 flat2 j2000 = Some chart
    /\ List.length (Chart.houses chart) = 12%nat
    /\ Forall (fun nm => exists i, housesHolding nm (Chart.houses chart) = [i])
              bodyNames.
Proof.
  destruct (calculateChart flat1 flat1 flat1 flat2 j2000) as [chart|] eqn:E.
  - destruct (each_body_in_one_house flat1 flat1 flat1 flat2 j2000 chart E)
      as [_ [H1 H2]].
    exists chart. repeat split; assumption.
  - exfalso. exact (chart_j2000_returned E).
Defined.

(** ** Delta-T *)

(** The model is left as soon as [year + 0.5 / 12] is not within
    (1986, 2050]. *)
Lemma calcDeltaT_zero (year : Q) :
  year + 0.5 / 12 <= 1986 \/ 2050 < year + 0.5 / 12 -> calcDeltaT year = 0.
Proof.
  intro H. unfold calcDeltaT, Num.gtb.
  assert (Hc : 0.5 / 12 == 1 # 24) by reflexivity.
  destruct H as [H|H].
  - rewrite (proj2 (ltb_false 2005 (year + 0.5 / 12))) by lra.
    rewrite (proj2 (ltb_false 1986 (year + 0.5 / 12))) by lra.
    reflexivity.
  - rewrite (proj2 (leb_false (year + 0.5 / 12) 2050)) by lra.
    rewrite (proj2 (leb_false (year + 0.5 / 12) 2005)) by lra.
    rewrite !andb_false_r. reflexivity.
Qed.

(** C6. For a calendar year (an integer, as [getFullYear] gives it)
    before 1986 or after 2050, [calcDeltaT] returns 0; [calcDeltaT 1900 = 0]; [calcDeltaT 2030] is the value of the
    polynomial of the branch for 2005 to 2050 and is positive. *)
Theorem calcDeltaT_outside_model (year : Z) :
  (year < 1986 \/ 2050 < year)%Z ->
  calcDeltaT (inject_Z year) = 0
  /\ calcDeltaT 1900 = 0
  /\ (let y := 2030 + 0.5 / 12 in
      let t := y - 2000 in
      calcDeltaT 2030
      = 62.92 + 0.32217 * t + 0.005589 * t * t
        + -0.000012932 * Qpower (y - 1955) 2)
  /\ 0 < calcDeltaT 2030.
Proof.
  intro H. split; [|repeat split].
  apply calcDeltaT_zero.
  assert (Hc : 0.5 / 12 == 1 # 24) by reflexivity.
  destruct H as [H|H].
  - left. assert (Hq : inject_Z year <= inject_Z 1985) by (rewrite <- Zle_Qle; lia).
    change (inject_Z 1985) with 1985 in Hq. lra.
  - right. assert (Hq : inject_Z 2051 <= inject_Z year) by (rewrite <- Zle_Qle; lia).
    change (inject_Z 2051) with 2051 in Hq. lra.
Qed.

(** The statement at the year 1900. *)
Lemma calcDeltaT_outside_model_1900 :
  (1900 < 1986 \/ 2050 < 1900)%Z
  /\ calcDeltaT (inject_Z 1900) = 0
  /\ 0 < calcDeltaT 2030.
Proof.
  assert (H : (1900 < 1986 \/ 2050 < 1900)%Z) by (left; reflexivity).
  destruct (calcDeltaT_outside_model 1900 H) as [H0 [_ [_ Hp]]].
  split; [exact H|]. split; [exact H0 | exact Hp].
Defined.

(** ** Julian date *)

Lemma calcJulianDate_eq (birthData : BirthData.t) :
  calcJulianDate birthData
  = inject_Z (let v := julianDayCount birthData in
              let jd := Qfloor (v * 10000000) in
              if (v * 10000000 - inject_Z jd) >? 0.5 then (jd + 1)%Z else jd)
    * 0.0000001.
Proof. reflexivity. Qed.

(** The floor, one more when the remainder exceeds a half, is the
    nearest integer with a half going down. *)
Lemma floor_step_half_down (x : Q) :
  (if (x - inject_Z (Qfloor x)) >? 0.5 then (Qfloor x + 1)%Z else Qfloor x)
  = roundHalfDown x.
Proof.
  unfold roundHalfDown, Qceiling.
  destruct (floor_bounds x) as [Flo Fhi].
  assert (U : forall n : Z,
             inject_Z n - 1 < x - 0.5 -> x - 0.5 <= inject_Z n ->
             (- Qfloor (- (x - 0.5)))%Z = n).
  { intros n H1 H2.
    rewrite (floor_unique (- (x - 0.5)) (- n)).
    - lia.
    - rewrite inject_Z_opp. lra.
    - rewrite inject_Z_opp. lra. }
  unfold Num.gtb. split_cmp; symmetry; apply U;
    try rewrite inject_Z_plus; change (inject_Z 1) with 1; lra.
Qed.

(** Away from a remainder of one half the two roundings agree. *)
Lemma round_half_agree (x : Q) :
  ~ x - inject_Z (Qfloor x) == 0.5 -> roundHalfDown x = roundHalfUp x.
Proof.
  intro H. rewrite <- floor_step_half_down. unfold roundHalfUp, Num.gtb.
  destruct (floor_bounds x) as [Flo Fhi].
  split_cmp; symmetry; apply floor_unique;
    try rewrite inject_Z_plus; change (inject_Z 1) with 1; lra.
Qed.

(** C7, at a remainder of one half: at noon of 1900-01-01, time zone
    -0.09375, the day count is 2415021.00390625 and the code returns
    2415021.0039062, where a half going up gives 2415021.0039063. *)
Lemma calcJulianDate_half_goes_down :
  julianDayCount noon1900 == 2415021.00390625
  /\ calcJulianDate noon1900 == 2415021.0039062
  /\ inject_Z (roundHalfUp (julianDayCount noon1900 * 10000000)) * 0.0000001
     == 2415021.0039063
  /\ ~ calcJulianDate noon1900
       == inject_Z (roundHalfUp (julianDayCount noon1900 * 10000000)) * 0.0000001.
Proof.
  repeat split; try reflexivity. vm_compute. discriminate.
Qed.

(** The rounded value is within half a unit of the product. *)
Lemma roundHalfDown_near (x : Q) :
  - (0.5) <= inject_Z (roundHalfDown x) - x /\ inject_Z (roundHalfDown x) - x < 0.5.
Proof.
  unfold roundHalfDown. destruct (ceiling_bounds (x - 0.5)) as [Clo Chi].
  split; lra.
Qed.

Lemma roundHalfDown_tie (n : Z) : roundHalfDown (inject_Z n + 0.5) = n.
Proof.
  unfold roundHalfDown.
  assert (E : inject_Z n + 0.5 - 0.5 == inject_Z n) by ring.
  rewrite (Qceiling_comp _ _ E). apply Qceiling_Z.
Qed.

(** C7, as the code has it. [calcJulianDate] hands the product
    [(j + fc) * 10000000] to the rounding of lines 98-101, and for every
    product that rounding returns 0.0000001 times the integer nearest to
    the product, a half going down: the integer is within one half of the
    product, and for a product of an integer and one half it is that
    integer, not the next.  The rounding is that of the product the code
    has computed. *)
Theorem roundToSeventh_half_down :
  (forall birthData : BirthData.t,
     calcJulianDate birthData
     = roundToSeventh (julianDayCount birthData * 10000000))
  /\ (forall product : Q,
        roundToSeventh product = inject_Z (roundHalfDown product) * 0.0000001
        /\ product - 0.5 <= inject_Z (roundHalfDown product)
        /\ inject_Z (roundHalfDown product) < product + 0.5)
  /\ (forall n : Z,
        roundToSeventh (inject_Z n + 0.5) = inject_Z n * 0.0000001).
Proof.
  assert (R : forall product : Q,
             roundToSeventh product = inject_Z (roundHalfDown product) * 0.0000001).
  { intro product. unfold roundToSeventh, Num.Math_floor. cbv zeta.
    rewrite floor_step_half_down. reflexivity. }
  split; [reflexivity|]. split.
  - intro product. split; [apply R|].
    destruct (roundHalfDown_near product). split; lra.
  - intro n. rewrite R, roundHalfDown_tie. reflexivity.
Qed.

(** ** Mean-element positions *)

Lemma lookup_absent (key : Z) (table : list (Z * (Q * Q))) :
  ~ In key (map fst table) -> lookup key table = None.
Proof.
  induction table as [|[k v] rest IH]; intro H; [reflexivity|].
  simpl in *. destruct (Z.eqb_spec k key) as [E|E].
  - exfalso. apply H. left. exact E.
  - apply IH. intro Hin. apply H. right. exact Hin.
Qed.

(** C10. For every day number and every body index without an entry in
    the table of mean elements (the table has the Sun, the Moon, Mars,
    Mercury, Jupiter, Venus and Saturn), [calcPlanetPosition] returns 0;
    so it does for the ascendant, Rahu and Ketu. *)
Theorem calcPlanetPosition_untabulated (planet : Z) (dn : Q) :
  ~ In planet tabulatedBodies ->
  calcPlanetPosition planet dn = 0
  /\ calcPlanetPosition AS dn = 0
  /\ calcPlanetPosition RA dn = 0
  /\ calcPlanetPosition KE dn = 0.
Proof.
  intro H. split; [|repeat split].
  unfold calcPlanetPosition.
  rewrite (lookup_absent planet elements H). reflexivity.
Qed.

(** The statement at Rahu, 9131.5 days after the epoch. *)
Lemma calcPlanetPosition_untabulated_rahu :
  ~ In RA tabulatedBodies /\ calcPlanetPosition RA 9131.5 = 0.
Proof.
  assert (H : ~ In RA tabulatedBodies).
  { unfold tabulatedBodies, RA, SU, MO, MA, ME, JU, VE, SA. simpl. lia. }
  split; [exact H|].
  exact (proj1 (calcPlanetPosition_untabulated RA 9131.5 H)).
Defined.

(** A tabulated body is on its mean longitude. *)
Lemma calcPlanetPosition_sun (dn : Q) :
  calcPlanetPosition SU dn = mod360 (280.46457 + 0.98564736 * dn).
Proof. reflexivity. Qed.

(** ** Coordinate strings *)

Lemma parse_examples :
  JS.same (parseLatitude "28N36") (JS.Fin 28.6)
  /\ JS.same (parseLongitude "77E12") (JS.Fin 77.2)
  /\ JS.same (parseLatitude "12S0") (JS.Fin (-12.0))
  /\ JS.same (parseLatitude "abc") (JS.Fin 0)
  /\ JS.same (parseLatitude "45.6") (JS.Fin 45.6)
  /\ JS.same (parseLongitude " 77 e 45 ") (JS.Fin 77.75).
Proof. repeat split. Qed.


(** C8, where the code departs from it: with a hemisphere letter and no
    digits in front of it, nothing parses and the result is [NaN], not 0. *)
Theorem parse_hemisphere_without_degrees :
  parseLatitude "N" = JS.NaN
  /\ parseLatitude "xN30" = JS.NaN
  /\ parseLatitude "south" = JS.NaN
  /\ parseLongitude "E" = JS.NaN
  /\ parseLongitude "west" = JS.NaN
  /\ ~ JS.same (parseLatitude "N") (JS.Fin 0).
Proof. repeat split; try reflexivity. simpl. tauto. Qed.
(** * Further properties of the code *)

(** ** Angle normalisation (lines 41-45) *)

Section Binary64Normalisation.

Import PrimFloat.
Local Open Scope float_scope.

(** [mod360] on binary64 numbers: 60 and 360 come back as 60 and 0; a
    turn on from 60 the result is four binary64 numbers above 60
    (60.000000000000028); a negative number too small to show in
    [a + 360] gives 360 itself. *)
Lemma mod360_binary64_samples :
  B64.mod360 60 = 60
  /\ B64.mod360 360 = 0
  /\ B64.mod360 420 = 0x1.e000000000004p+5
  /\ B64.mod360 (- 0x1p-70) = 360.
Proof. vm_compute. repeat split. Qed.

End Binary64Normalisation.


(** ** Mean-element positions (lines 162-180) *)



(** ** Zodiac sign (lines 224-238) *)



(** ** Nakshatra (lines 240-263) *)






(** ** Time and calendar (lines 54-132) *)

Lemma ltb_compat (x x' y y' : Q) : x == x' -> y == y' -> (x <? y) = (x' <? y').
Proof.
  intros Ex Ey. unfold Num.ltb. rewrite (Qleb_comp _ _ Ey _ _ Ex). reflexivity.
Qed.

(** X12. In the branch for 2005 to 2050 Delta-T stays between 64 and 94
    seconds and grows with the year. *)
Theorem calcDeltaT_recent_branch (year1 year2 : Q) :
  2005 < year1 + 0.5 / 12 -> year1 < year2 -> year2 + 0.5 / 12 <= 2050 ->
  64 < calcDeltaT year1
  /\ calcDeltaT year1 < calcDeltaT year2
  /\ calcDeltaT year2 < 94.
Proof.
  intros H1 H12 H2.
  assert (Hc : 0.5 / 12 == 1 # 24) by reflexivity.
  unfold calcDeltaT, Num.gtb. cbv zeta.
  rewrite (proj2 (ltb_true 2005 (year1 + 0.5 / 12))) by lra.
  rewrite (proj2 (leb_true (year1 + 0.5 / 12) 2050)) by lra.
  rewrite (proj2 (ltb_true 2005 (year2 + 0.5 / 12))) by lra.
  rewrite (proj2 (leb_true (year2 + 0.5 / 12) 2050)) by lra.
  cbn [andb].
  change (Qpower (year1 + 0.5 / 12 - 1955) 2)
    with ((year1 + 0.5 / 12 - 1955) * (year1 + 0.5 / 12 - 1955)).
  change (Qpower (year2 + 0.5 / 12 - 1955) 2)
    with ((year2 + 0.5 / 12 - 1955) * (year2 + 0.5 / 12 - 1955)).
  set (y1 := year1 + 0.5 / 12) in *.
  set (y2 := year2 + 0.5 / 12) in *.
  assert (Y12 : y1 < y2) by (unfold y1, y2; lra).
  repeat split; nra.
Qed.

(** The statement for the years 2010 and 2030. *)
Lemma calcDeltaT_recent_branch_2010_2030 :
  2005 < 2010 + 0.5 / 12 /\ 2010 < 2030 /\ 2030 + 0.5 / 12 <= 2050
  /\ 64 < calcDeltaT 2010
  /\ calcDeltaT 2010 < calcDeltaT 2030
  /\ calcDeltaT 2030 < 94.
Proof.
  assert (H1 : 2005 < 2010 + 0.5 / 12) by reflexivity.
  assert (H2 : 2010 < 2030) by reflexivity.
  assert (H3 : 2030 + 0.5 / 12 <= 2050) by discriminate.
  split; [exact H1|]. split; [exact H2|]. split; [exact H3|].
  exact (calcDeltaT_recent_branch 2010 2030 H1 H2 H3).
Defined.

(** X13. For a date of the Gregorian calendar from 1583 on, the day
    count of [calcJulianDate] before rounding is the day number of
    [calcDayNumber] plus 2451545, the Julian date of the epoch of the day
    number, plus Delta-T taken from seconds to days; the roll-back of the
    day before noon has no effect on the sum. *)
Theorem julianDayCount_from_dayNumber (birthData : BirthData.t) :
  (1583 <= Date.getFullYear (BirthData.date birthData))%Z ->
  (0 <= Date.getMonth (BirthData.date birthData) <= 11)%Z ->
  (1 <= Date.getDate (BirthData.date birthData) <= 31)%Z ->
  julianDayCount birthData
  == calcDayNumber birthData + 2451545
     + calcDeltaT (inject_Z (Date.getFullYear (BirthData.date birthData))) / 86400.
Proof.
  destruct birthData as [nm [y m d] [h mi] tz lat lon]. cbn.
  intros Hy Hm Hd. unfold julianDayCount, calcDayNumber.
  cbn [BirthData.date BirthData.time BirthData.tz Date.getFullYear
       Date.getMonth Date.getDate Clock.hours Clock.minutes].
  cbv zeta.
  assert (G : (d + 31 * (m + 1 + 12 * y) >=? 588829)%Z = true)
    by (apply Z.geb_le; lia).
  rewrite G.
  destruct (m + 1 <? 3)%Z eqn:E.
  - apply Z.ltb_lt in E.
    assert (E' : (m + 1 >? 2)%Z = false) by (rewrite Z.gtb_ltb; apply Z.ltb_ge; lia).
    assert (G' : ((y - 1) * 10000 + (m + 1 + 12) * 100 + d >? 15821004)%Z = true)
      by (apply Z.gtb_lt; lia).
    rewrite E', G'.
    replace (m + 1 + 12 + 1)%Z with (m + 1 + 13)%Z by lia.
    split_cmp; field.
  - apply Z.ltb_ge in E.
    assert (E' : (m + 1 >? 2)%Z = true) by (apply Z.gtb_lt; lia).
    assert (G' : (y * 10000 + (m + 1) * 100 + d >? 15821004)%Z = true)
      by (apply Z.gtb_lt; lia).
    rewrite E', G'.
    split_cmp; field.
Qed.

(** The statement at noon of 2000-01-01: day number 0, day count 2451545
    and the 3.87 seconds of Delta-T. *)
Lemma julianDayCount_from_dayNumber_j2000 :
  calcDayNumber j2000 == 0
  /\ julianDayCount j2000 == 0 + 2451545 + calcDeltaT 2000 / 86400.
Proof.
  split; [reflexivity|].
  assert (Hy : (1583 <= Date.getFullYear (BirthData.date j2000))%Z) by (cbn; lia).
  assert (Hm : (0 <= Date.getMonth (BirthData.date j2000) <= 11)%Z) by (cbn; lia).
  assert (Hd : (1 <= Date.getDate (BirthData.date j2000) <= 31)%Z) by (cbn; lia).
  rewrite (julianDayCount_from_dayNumber j2000 Hy Hm Hd). reflexivity.
Defined.

Lemma calcDayNumber_inZone (birthData : BirthData.t) (shift : Q) :
  calcDayNumber (inZone birthData shift) == calcDayNumber birthData.
Proof.
  destruct birthData as [nm [y m d] [h mi] tz lat lon].
  unfold calcDayNumber, inZone.
  cbn [BirthData.date BirthData.time BirthData.tz Date.getFullYear
       Date.getMonth Date.getDate Clock.hours Clock.minutes].
  cbv zeta.
  destruct (m + 1 <? 3)%Z;
    match goal with
    | |- context [ if ?c then _ else _ ] => destruct c
    end; field.
Qed.

Lemma julianDayCount_inZone (birthData : BirthData.t) (shift : Q) :
  julianDayCount (inZone birthData shift) == julianDayCount birthData.
Proof.
  destruct birthData as [nm [y m d] [h mi] tz lat lon].
  unfold julianDayCount, inZone.
  cbn [BirthData.date BirthData.time BirthData.tz Date.getFullYear
       Date.getMonth Date.getDate Clock.hours Clock.minutes].
  cbv zeta.
  assert (Edf : (h + shift - (tz + shift)) / 24.0 - 0.5 == (h - tz) / 24.0 - 0.5)
    by field.
  rewrite (ltb_compat _ _ _ _ Edf (Qeq_refl 0.0)).
  destruct (m + 1 >? 2)%Z;
    destruct (d + 31 * (m + 1 + 12 * y) >=? 588829)%Z;
    destruct ((h - tz) / 24.0 - 0.5 <? 0.0); field.
Qed.

(** X14. Telling the same instant in another time zone (the clock hours
    and the zone offset moved by the same amount) gives the same day
    number and sidereal time, and the very same Julian date. *)
Theorem same_instant_other_zone (birthData : BirthData.t) (shift : Q) :
  calcDayNumber (inZone birthData shift) == calcDayNumber birthData
  /\ calcSiderealTime (inZone birthData shift) == calcSiderealTime birthData
  /\ calcJulianDate (inZone birthData shift) = calcJulianDate birthData.
Proof.
  split; [apply calcDayNumber_inZone|]. split.
  - unfold calcSiderealTime. cbv zeta.
    apply mod360_compat.
    rewrite (calcDayNumber_inZone birthData shift).
    destruct birthData as [nm dt tm tz lat lon]. reflexivity.
  - rewrite !calcJulianDate_eq. cbv zeta.
    assert (E : julianDayCount (inZone birthData shift) * 10000000
                == julianDayCount birthData * 10000000)
      by (rewrite julianDayCount_inZone; reflexivity).
    rewrite (Qfloor_comp _ _ E).
    unfold Num.gtb.
    rewrite (ltb_compat 0.5 0.5
               (julianDayCount (inZone birthData shift) * 10000000
                - inject_Z (Qfloor (julianDayCount birthData * 10000000)))
               (julianDayCount birthData * 10000000
                - inject_Z (Qfloor (julianDayCount birthData * 10000000))));
      [reflexivity | reflexivity | rewrite E; reflexivity].
Qed.

(** ** Ayanamsa (lines 121-132) *)

(** X15. For a date of the years 1900 to 2100 the ayanamsa is between
    22.46 and 25.26 degrees. *)
Theorem calcAyanamsa_bounds (date : Date.t) :
  (1900 <= Date.getFullYear date <= 2100)%Z ->
  (0 <= Date.getMonth date <= 11)%Z ->
  (1 <= Date.getDate date <= 31)%Z ->
  22.46 < calcAyanamsa date /\ calcAyanamsa date < 25.26.
Proof.
  destruct date as [y m d]. cbn. intros Hy Hm Hd.
  unfold calcAyanamsa.
  cbn [Date.getFullYear Date.getMonth Date.getDate]. cbv zeta.
  assert (E : (y <? 100)%Z = false) by (apply Z.ltb_ge; lia).
  rewrite E.
  assert (Y0 : 1900 <= inject_Z y).
  { change 1900 with (inject_Z 1900). rewrite <- Zle_Qle. lia. }
  assert (Y1 : inject_Z y <= 2100).
  { change 2100 with (inject_Z 2100). rewrite <- Zle_Qle. lia. }
  assert (M0 : 1 <= inject_Z (m + 1)).
  { change 1 with (inject_Z 1). rewrite <- Zle_Qle. lia. }
  assert (M1 : inject_Z (m + 1) <= 12).
  { change 12 with (inject_Z 12). rewrite <- Zle_Qle. lia. }
  assert (D0 : 1 <= inject_Z d).
  { change 1 with (inject_Z 1). rewrite <- Zle_Qle. lia. }
  assert (D1 : inject_Z d <= 31).
  { change 31 with (inject_Z 31). rewrite <- Zle_Qle. lia. }
  change (inject_Z 1000) with 1000.
  set (c := inject_Z y * 1.0 / 1000).
  assert (C : c == inject_Z y / 1000) by (unfold c; field).
  assert (C0 : 1.9 <= c) by (rewrite C; apply Qle_shift_div_l; lra).
  assert (C1 : c <= 2.1) by (rewrite C; apply Qle_shift_div_r; lra).
  set (b := (inject_Z (m + 1) + inject_Z d / 30) * 1.1574074 / 1000).
  assert (B : b == (inject_Z (m + 1) + inject_Z d * (1 # 30)) * 0.0011574074)
    by (unfold b; field).
  split; nra.
Qed.

(** The statement for 2000-01-01. *)
Lemma calcAyanamsa_bounds_j2000 :
  22.46 < calcAyanamsa (BirthData.date j2000)
  /\ calcAyanamsa (BirthData.date j2000) < 25.26.
Proof.
  apply (calcAyanamsa_bounds (BirthData.date j2000)); cbn; lia.
Defined.

(** ** Records of the bodies (lines 285-442) *)






(** ** The chart as a whole (lines 265-455) *)

Lemma rotation_house_index (ascSign s : Z) :
  (1 <= ascSign <= 12)%Z -> (1 <= s <= 12)%Z ->
  filter (fun i => match array_get (map (rotatedSign ascSign) houseIndices) i with
                   | Some r => (r =? s)%Z
                   | None => false
                   end) houseIndices = [((s - ascSign) mod 12)%Z].
Proof.
  intros Ha Hs. each_sign Ha; each_sign Hs; reflexivity.
Qed.

(** Adding a body that passes the test of one house only puts its name
    into the lists once. *)
Lemma concat_select_skip (f : Z -> Planet.t -> bool) (p : Planet.t)
    (ps : list Planet.t) (idxs : list Z) :
  filter (fun i => f i p) idxs = [] ->
  List.concat (map (fun i => map Planet.name (filter (f i) (p :: ps))) idxs)
  = List.concat (map (fun i => map Planet.name (filter (f i) ps)) idxs).
Proof.
  induction idxs as [|i idxs IH]; intro H; [reflexivity|].
  cbn [filter] in H. rewrite !map_cons, !concat_cons.
  change (filter (f i) (p :: ps))
    with (if f i p then p :: filter (f i) ps else filter (f i) ps).
  destruct (f i p); [discriminate|].
  rewrite IH by exact H. reflexivity.
Qed.

Lemma concat_select_once (f : Z -> Planet.t -> bool) (p : Planet.t)
    (ps : list Planet.t) (idxs : list Z) (k : Z) :
  filter (fun i => f i p) idxs = [k] ->
  Permutation
    (List.concat (map (fun i => map Planet.name (filter (f i) (p :: ps))) idxs))
    (Planet.name p
     :: List.concat (map (fun i => map Planet.name (filter (f i) ps)) idxs)).
Proof.
  induction idxs as [|i idxs IH]; intro H; [discriminate|].
  cbn [filter] in H. rewrite !map_cons, !concat_cons.
  change (filter (f i) (p :: ps))
    with (if f i p then p :: filter (f i) ps else filter (f i) ps).
  destruct (f i p).
  - injection H as _ H. rewrite (concat_select_skip f p ps idxs H).
    rewrite map_cons. apply Permutation_refl.
  - apply Permutation_trans
      with (map Planet.name (filter (f i) ps)
            ++ Planet.name p
               :: List.concat (map (fun i => map Planet.name (filter (f i) ps)) idxs)).
    + apply Permutation_app_head, IH, H.
    + apply Permutation_sym, Permutation_middle.
Qed.

Lemma concat_select_all (f : Z -> Planet.t -> bool) (idxs : list Z)
    (ps : list Planet.t) :
  Forall (fun p => exists k, filter (fun i => f i p) idxs = [k]) ps ->
  Permutation
    (List.concat (map (fun i => map Planet.name (filter (f i) ps)) idxs))
    (map Planet.name ps).
Proof.
  induction 1 as [|p ps [k Hk] _ IH].
  - induction idxs as [|i idxs IHi]; [constructor | exact IHi].
  - apply Permutation_trans with (1 := concat_select_once f p ps idxs k Hk).
    rewrite map_cons. apply perm_skip, IH.
Qed.

Section ChartFurther.

Variable Math_sin Math_cos Math_tan : Q -> Q.
Variable Math_atan2 : Q -> Q -> Q.


(** X18. In the chart [calculateChart] returns, each body is in the
    house whose index is the distance from the sign of the ascendant to
    its own sign, counted in the round of twelve; the ascendant itself is
    in house 0. *)
Theorem house_is_sign_distance (birthData : BirthData.t) (chart : Chart.t) :
  calculateChart Math_sin Math_cos Math_tan Math_atan2 birthData = Some chart ->
  exists asc,
    array_get (Chart.planets chart) AS = Some asc
    /\ Forall (fun p => housesHolding (Planet.name p) (Chart.houses chart)
                        = [((Planet.rasizn p - Planet.rasizn asc) mod 12)%Z])
              (Chart.planets chart)
    /\ housesHolding "As" (Chart.houses chart) = [0%Z].
Proof.
  intro E.
  destruct (calculateChart_invariant Math_sin Math_cos Math_tan Math_atan2
              birthData chart E) as [I _].
  destruct I as (pAS & pSU & pMO & pMA & pME & pJU & pVE & pSA & pRA & pKE
                 & Hp & Hn & Hs & Hr & _ & Hh).
  exists pAS.
  split; [rewrite Hp; reflexivity|].
  assert (Ha : (1 <= Planet.rasizn pAS <= 12)%Z).
  { rewrite Hp in Hs. inversion Hs. assumption. }
  assert (Hnd : NoDup (map Planet.name (Chart.planets chart))).
  { rewrite Hn. unfold bodyNames.
    repeat (constructor; [simpl; intuition discriminate|]). constructor. }
  assert (G : Forall (fun p => housesHolding (Planet.name p) (Chart.houses chart)
                        = [((Planet.rasizn p - Planet.rasizn pAS) mod 12)%Z])
              (Chart.planets chart)).
  { apply Forall_forall. intros p Hin.
    rewrite Hh, housesHolding_select.
    assert (Hsp : (1 <= Planet.rasizn p <= 12)%Z).
    { rewrite Forall_forall in Hs. apply Hs, Hin. }
    rewrite <- (rotation_house_index _ _ Ha Hsp). apply filter_ext. intro i.
    unfold houseOf. rewrite (holds_select _ _ _ Hnd Hin).
    unfold inHouse. rewrite Hr, (calcRashis_rotation _ Ha). reflexivity. }
  split; [exact G|].
  rewrite Hp in G. inversion G as [|? ? G0 _]; subst.
  rewrite Hp in Hn. injection Hn as N0 _.
  rewrite N0, Z.sub_diag in G0. exact G0.
Qed.

(** X19. In the chart [calculateChart] returns, the body lists of the
    twelve houses, put end to end, hold each of the ten names once and
    nothing else. *)
Theorem houses_partition_bodies (birthData : BirthData.t) (chart : Chart.t) :
  calculateChart Math_sin Math_cos Math_tan Math_atan2 birthData = Some chart ->
  Permutation (List.concat (Chart.houses chart)) bodyNames.
Proof.
  intro E.
  destruct (calculateChart_invariant Math_sin Math_cos Math_tan Math_atan2
              birthData chart E) as [I _].
  destruct I as (pAS & pSU & pMO & pMA & pME & pJU & pVE & pSA & pRA & pKE
                 & Hp & Hn & Hs & Hr & _ & Hh).
  assert (Ha : (1 <= Planet.rasizn pAS <= 12)%Z).
  { rewrite Hp in Hs. inversion Hs. assumption. }
  rewrite Hh, <- Hn. unfold houseOf.
  apply (concat_select_all (inHouse (Chart.rashis chart)) houseIndices).
  apply Forall_forall. intros p Hin.
  assert (Hsp : (1 <= Planet.rasizn p <= 12)%Z).
  { rewrite Forall_forall in Hs. apply Hs, Hin. }
  exists ((Planet.rasizn p - Planet.rasizn pAS) mod 12)%Z.
  rewrite <- (rotation_house_index _ _ Ha Hsp). apply filter_ext. intro i.
  unfold inHouse. rewrite Hr, (calcRashis_rotation _ Ha). reflexivity.
Qed.

End ChartFurther.


(** The house of the ascendant on the chart of [j2000]. *)
Lemma house_is_sign_distance_j2000 :
  exists chart,
    calculateChart flat1 flat1 flat1 flat2 j2000 = Some chart
    /\ housesHolding "As" (Chart.houses chart) = [0%Z].
Proof.
  destruct (calculateChart flat1 flat1 flat1 flat2 j2000) as [chart|] eqn:E.
  - destruct (house_is_sign_distance flat1 flat1 flat1 flat2 j2000 chart E)
      as [asc [_ [_ H]]].
    exists chart. split; [reflexivity | exact H].
  - exfalso. exact (chart_j2000_returned E).
Defined.

(** The house lists of the chart of [j2000], end to end. *)
Lemma houses_partition_bodies_j2000 :
  exists chart,
    calculateChart flat1 flat1 flat1 flat2 j2000 = Some chart
    /\ Permutation (List.concat (Chart.houses chart)) bodyNames.
Proof.
  destruct (calculateChart flat1 flat1 flat1 flat2 j2000) as [chart|] eqn:E.
  - exists chart. split; [reflexivity|].
    exact (houses_partition_bodies flat1 flat1 flat1 flat2 j2000 chart E).
  - exfalso. exact (chart_j2000_returned E).
Defined.

(** ** Coordinate strings (lines 457-479) *)








































